(* ===== verification/_CoqProject ===== *)
-Q . S2P
Prelude.v
PyStr.v
Json.v
Sanitizer.v
TypeInfer.v
ClassGen.v
ClassDecl.v
Driver.v
Walk.v
Layout.v
Recursion.v
Cli.v
CliStep.v
EndToEnd.v
