(* ===== verification/Prelude.v ===== *)
(** * JsonToApexParser: a verification development of [src/json2apex.py]

    The program converts a sample JSON document into the text of an Apex
    class.  It has five parts, all in [src/json2apex.py]:

    - the Name Sanitizer: [APEX_KEYWORDS], [to_camel_case],
      [is_apex_keyword] and [safe_field_name] (lines 5-29) turn a JSON key
      into an Apex field identifier;
    - the Type Inferrer: [infer_apex_type] (lines 31-48) maps a JSON value
      to the text of an Apex type;
    - the Class Tree Generator: [generate_apex_class] (lines 50-88) walks a
      JSON object depth first and emits one class per nested object (and
      per first element of an array of objects), consulting the sanitizer
      and the inferrer for every key;
    - the Driver: [convert_json_to_apex] (lines 91-97) picks the root object
      of the parsed document and raises [ValueError] otherwise;
    - the CLI: [main] (lines 99-121) reads the input file, parses it with
      [json.loads], calls the driver and writes the class to the [-o] file
      or prints it.

    ** Files of the development (in dependency order)

    - [Prelude] (this file): the Python exceptions the code can raise
      ([py_exc]) and a result type [result] with its bind and the
      [let* x := m in k] notation (scope [py_scope]); lemmas on string
      append and lists; the hint databases [j2a] and [j2a_rw] and the
      [inv_bind] tactic.
    - [PyStr]: the Python [str] builtins the code calls ([split], ['sep'.join],
      [upper], [lower], [capitalize], [isidentifier], [s[0]], [s[1:]],
      ['s' * n]) on ASCII text, with their lemmas, among them the round
      trips between [split] and [join] and the characters ([inert]: not a
      letter, not ['_']) that case mapping leaves alone.
    - [Json]: the value tree [json.loads] produces (None, bool, int,
      float, str, list, dict with insertion order) with its nested
      induction principle, and Python's [isinstance] on it, in which [bool]
      is a subclass of [int], as in CPython.
    - [Sanitizer]: the Name Sanitizer, and a one-pass reference
      [camel_scan] for [to_camel_case].
    - [TypeInfer]: the Type Inferrer, and an abstract syntax [apex_type] of
      the types it returns.
    - [ClassGen]: [generate_apex_class] as written (text built line by line,
      accumulators [fields] and [inner_classes] threaded through the loop
      [generate_fields], exceptions propagated).
    - [ClassDecl]: the two-pass reading of the generator that spec section 9
      recommends: [build_class] computes a [class_decl] tree (name, fields,
      root flag, nested classes) and [render_class] prints it; the
      refinement theorem shows that [generate_apex_class] is exactly
      [render_class] after [build_class]; [nested_item] names the items
      that introduce a nested class, [build_fields_cons] takes the loop one
      item at a time and [build_class_rect] is induction on built trees,
      with which the structural theorems are proved.
    - [Driver]: [convert_json_to_apex], [select_root] (the representative
      object) and the document of spec section 8 the witnesses run on.
    - [Walk]: folds over the generator's walk: the keys it meets and the
      objects it visits.
    - [Layout]: the printed text: lines, braces and size.
    - [Recursion]: [generate_apex_class_fuel], the generator under a call
      stack of bounded depth, as CPython runs it.
    - [Cli]: [main] in a state monad [io] (stdpp's [MRet]/[MBind]
      instances) over the file system ([gmap] of paths to contents) and the
      trace of reads, writes and prints, calling the parser through the
      interface [JsonLoads]; [run] adds the exit status.
    - [CliStep]: the same lines of [main] as a small-step machine:
      [cli_pc] names the program point before each statement (read,
      [json.loads], convert, [if args.output:], confirmation) and the two
      ends ([Returned], [Raised e]); [cli_step] is one statement, one rule
      per statement and outcome, and is the graph of the executable
      [cli_next].
    - [EndToEnd]: theorems through all the components at once, from the
      file [main] reads to the file it writes.

    ** Modelling choices

    - Python exceptions are values: every function that can raise returns
      a [result]; [IndexError] is [name[0]] on an empty string,
      [AttributeError] is [.items()] on a value that is not a dict,
      [ValueError] is the driver's rejection, [FileNotFoundError] and
      [JSONDecodeError] come from the CLI's [open] and [json.loads], and
      [RecursionError] from the interpreter's call stack.
    - A JSON object is the list of its items in insertion order, as
      [dict.items()] yields them; duplicate keys are not excluded (the
      parser keeps one of them, which the generator never sees).
    - Strings are Stdlib [string]s.  Case mapping and [isidentifier] are
      Python's on ASCII; a byte above 127 is treated as a character that is
      neither a letter nor a digit and that case mapping leaves unchanged.
      Python's Unicode tables are not modelled.
    - Python floats are [SpecFloat.spec_float] (the IEEE-754 model of the
      Standard Library): the code never looks at their value.
    - The generator recurses on the JSON tree, so every function is total
      by structural recursion and no fuel is needed for the model itself.
      CPython's recursion limit is modelled separately, in [Recursion],
      as a bound on the call depth.
    - In [Cli], an exception keeps the state reached (Python keeps the
      effects done before a [raise]); a print appends its text and a
      newline to standard output; [open(path, 'w')] creates or truncates.

    ** What is proved (the claims of PROJECT.json, by file)

    - [ClassDecl]: refinement of the generator by build-then-print
      ([generate_apex_class_refines]); its exact error behaviour
      ([generate_apex_class_outcome]: [IndexError] for an empty name or
      class-introducing key, [AttributeError] for a non-dict, never
      [ValueError]); the nesting invariant (nested classes are, in order,
      the classes the fields are typed with, and only the outermost class
      is a root, so the helper methods appear once); one field per key in
      key order with its sanitized name and its type; one class per object
      the walk visits.
    - [Layout]: for keys without newlines, splitting the output at
      newlines gives back the printed lines (a round trip), and the output
      has [8 + 2 * objects + keys] lines; for keys without braces, the
      braces of the output are balanced; for keys without parentheses,
      the lines with a parenthesis are exactly the four [fromJSON] and
      [toJSON] lines of the root class (the helpers are printed once), and
      the class headers (lines opening a brace without a parenthesis)
      are, in order, one per object the generator visits depth first in
      key order ([walk_headers] of [Walk]), each at its depth's
      indentation: the preorder [class_preorder] of the tree.
    - [Recursion]: [call_depth v] stack frames are enough for the generator
      to return its result (termination within that depth) and, on a valid
      input, fewer frames raise [RecursionError]: the depth is exact.
    - [Cli]: when [main] raises, no file is written and nothing printed;
      with [-o] the class is written and then the confirmation printed, in
      this order; without [-o] (or with an empty one) the class is printed;
      the exit status is 0 only on valid inputs (the converse would need a
      writable [-o] path and a deep enough stack, which the model of
      [main] takes for granted); [ValueError] reaches
      the process exactly on documents without a root object.
    - [CliStep]: refinement (the runs end in result [r] and state [s']
      exactly when [Cli.main] gives [(r, s')], using stdpp's
      [deterministic_confluent]); the trace invariant, by rule induction
      on [rtc]: every reachable state extends the initial trace with reads
      of the input, writes of the [-o] path and prints only, and its file
      system is the initial one with those writes replayed.
    - [EndToEnd]: a successful run with [-o] leaves at that path a file
      whose lines are exactly those of the class tree built from the root
      object of the parsed input (for names and keys without newlines).
    - [ClassGen]: the rename comment is attached exactly when the sanitizer
      prefixed the name; a snake_case key keeps its camel-cased name with
      no prefix and no comment when that name is not a reserved word.
    - [Driver]: [ValueError] exactly on documents with no root object.
    - [Sanitizer]: sanitized names are never reserved words; they are legal
      identifiers exactly when the camel-cased key has only ASCII letters,
      digits and underscores; camel-casing equals the one-pass scan;
      sanitization is not injective ([w_p] and [w] followed by
      [p.capitalize()] collide, for all underscore-free [w] and [p]).
    - [TypeInfer]: the inferred text is the printing of the spec's type
      table (booleans are [Boolean] although Python counts them as [int]).
    - Findings, each read off a general theorem: [str.capitalize]
      lower-cases the rest of a part ([to_camel_case_scan]); the underscore
      prefix does not repair [first-name] ([safe_field_name_isidentifier]);
      distinct keys collide ([safe_field_name_collision]); an empty root
      name or key raises [IndexError] ([generate_apex_class_outcome]);
      class names are not sanitized ([build_class_fields]: the class is
      named [class_name_of key]); keys are printed unescaped, so the line
      and brace theorems need keys without newlines and braces; snake_case
      keys such as [date_time] are renamed (the reserved-word proviso of
      [safe_field_name_snake]); deep documents raise [RecursionError]
      ([generate_apex_class_fuel_exact]); an empty [-o] prints instead of
      writing ([main_prints_output]).

    ** Not modelled

    - [argparse]: [main] receives the parsed arguments ([cli_args], with
      the defaults of lines 101-103); usage errors and [--help] are the
      library's.
    - [json.loads]: [main] calls it through the type class [JsonLoads],
      whose contract [JsonLoadsLaws] (it raises only [JSONDecodeError]) is
      the one assumption of the theorem that needs it; the theorems hold
      for every parser, and the sample run instantiates the class with a
      table of known texts.
    - No interface between the sanitizer and the generator: the generator
      calls [safe_field_name], [to_camel_case] and [infer_apex_type]
      directly (lines 59-74), and the model keeps those calls; the
      generator's naming theorems are stated about [safe_field_name]
      itself.  The one interface of the program is the parser [main]
      calls, modelled as the type class [JsonLoads].
    - The traceback an uncaught exception prints on standard error: only
      the exit status 1 is modelled.  I/O failures other than a missing
      input file (permissions, a missing output directory) are not
      modelled: writing always succeeds.
*)

From stdpp Require Import base list strings.
From Stdlib Require Import Ascii String.

(** ** Python exceptions and results *)

Inductive py_exc : Type :=
| IndexError
| AttributeError
| ValueError (msg : string)
| FileNotFoundError (filename : string)
| JSONDecodeError (msg : string)
| RecursionError.

#[export] Instance py_exc_eq_dec : EqDecision py_exc.
Proof. solve_decision. Defined.

Inductive result (A : Type) : Type :=
| Ok (a : A)
| Raise (e : py_exc).
Arguments Ok {A} a.
Arguments Raise {A} e.

Definition res_bind {A B} (m : result A) (f : A -> result B) : result B :=
  match m with
  | Ok a => f a
  | Raise e => Raise e
  end.

Definition res_map {A B} (f : A -> B) (m : result A) : result B :=
  match m with
  | Ok a => Ok (f a)
  | Raise e => Raise e
  end.

Declare Scope py_scope.
Delimit Scope py_scope with py.
Notation "'let*' x ':=' m 'in' k" := (res_bind m (fun x => k))
  (at level 10, x pattern, m at level 100, k at level 200) : py_scope.

Definition is_ok {A} (m : result A) : bool :=
  match m with Ok _ => true | Raise _ => false end.

Lemma res_bind_Ok {A B} (a : A) (f : A -> result B) : res_bind (Ok a) f = f a.
Proof. reflexivity. Qed.

Lemma res_bind_Raise {A B} e (f : A -> result B) : res_bind (Raise e) f = Raise e.
Proof. reflexivity. Qed.

Lemma res_bind_Ok_inv {A B} (m : result A) (f : A -> result B) b :
  res_bind m f = Ok b -> exists a, m = Ok a /\ f a = Ok b.
Proof. destruct m; simpl; [eauto | discriminate]. Qed.

Lemma res_bind_Raise_inv {A B} (m : result A) (f : A -> result B) e :
  res_bind m f = Raise e -> m = Raise e \/ exists a, m = Ok a /\ f a = Raise e.
Proof. destruct m; simpl; [eauto | injection 1 as ->; auto]. Qed.

Lemma res_map_bind {A B C} (g : B -> C) (m : result A) (f : A -> result B) :
  res_map g (res_bind m f) = res_bind m (fun a => res_map g (f a)).
Proof. by destruct m. Qed.

(** Split every successful bind among the hypotheses. *)
Ltac inv_bind :=
  repeat match goal with
  | H : res_bind ?m _ = Ok _ |- _ =>
      let a := fresh "a" in let Ha := fresh "Ha" in
      apply res_bind_Ok_inv in H as (a & Ha & H)
  | H : Ok _ = Ok _ |- _ => injection H as H
  end.

(** ** Strings *)

Open Scope string_scope.

(** The newline and double-quote characters, written by code point. *)
Definition nl_char : ascii := ascii_of_nat 10.
Definition dq_char : ascii := ascii_of_nat 34.
Definition nl : string := String nl_char EmptyString.
Definition dq : string := String dq_char EmptyString.

(** stdpp makes [String.append] [simpl never]; these two equations are
    its computation rules. *)
Lemma str_app_nil_l (s : string) : "" +:+ s = s.
Proof. reflexivity. Qed.

Lemma str_app_String (c : ascii) (s1 s2 : string) :
  String c s1 +:+ s2 = String c (s1 +:+ s2).
Proof. reflexivity. Qed.

Lemma str_app_assoc (s1 s2 s3 : string) : (s1 +:+ s2) +:+ s3 = s1 +:+ (s2 +:+ s3).
Proof. induction s1 as [|c s IH]; [done |]. by rewrite !str_app_String, IH. Qed.

Lemma str_app_nil_r (s : string) : s +:+ "" = s.
Proof. induction s as [|c s IH]; [done |]. by rewrite str_app_String, IH. Qed.

Lemma str_app_length (s1 s2 : string) :
  String.length (s1 +:+ s2) = String.length s1 + String.length s2.
Proof. induction s1 as [|c s IH]; [done |]. rewrite str_app_String; simpl. by rewrite IH. Qed.

Lemma str_app_neq_self (p s : string) : p <> "" -> p +:+ s <> s.
Proof.
  intros Hp Heq. apply (f_equal String.length) in Heq.
  rewrite str_app_length in Heq. destruct p; [done | simpl in Heq; lia].
Qed.

Create HintDb j2a.
Create Rewrite HintDb j2a_rw.
#[export] Hint Rewrite str_app_assoc str_app_nil_r str_app_String
  @res_bind_Ok @res_bind_Raise : j2a_rw.
#[export] Hint Resolve str_app_neq_self : j2a.

(** ** Lists *)

(** A property of every element of [l], paired with a relation from [l]
    to [k], holds along the relation. *)
Lemma Forall_Forall2_and {A B} (Q : A -> Prop) (R : A -> B -> Prop) l k :
  Forall Q l -> Forall2 R l k -> Forall2 (fun x y => Q x /\ R x y) l k.
Proof. intros HQ HR. induction HR; inversion HQ; constructor; auto. Qed.

Lemma omap_cons {A B} (f : A -> option B) x l :
  omap f (x :: l) = match f x with Some y => y :: omap f l | None => omap f l end.
Proof. reflexivity. Qed.
