(* ===== verification/PyStr.v ===== *)
(** * PyStr: the Python [str] builtins that [src/json2apex.py] calls

    [str.split] with a one-character separator, ['sep'.join], [upper],
    [lower], [capitalize], [isidentifier], indexing [s[0]] (which raises
    [IndexError] on the empty string), slicing [s[1:]] and repetition
    ['s' * n], on ASCII text.  These are CPython's semantics restricted to
    code points below 128; they are the library the program calls, not code
    of the repository. *)

From S2P Require Import Prelude.
From stdpp Require Import base list strings.
From Stdlib Require Import Ascii String.

Open Scope list_scope.
Open Scope py_scope.

(** ** Characters *)

Definition is_ascii_upper (c : ascii) : bool :=
  let n := nat_of_ascii c in (65 <=? n)%nat && (n <=? 90)%nat.

Definition is_ascii_lower (c : ascii) : bool :=
  let n := nat_of_ascii c in (97 <=? n)%nat && (n <=? 122)%nat.

Definition is_ascii_digit (c : ascii) : bool :=
  let n := nat_of_ascii c in (48 <=? n)%nat && (n <=? 57)%nat.

Definition underscore : ascii := "_"%char.

(** [c.upper()] and [c.lower()] on one character. *)
Definition char_upper (c : ascii) : ascii :=
  if is_ascii_lower c then ascii_of_nat (nat_of_ascii c - 32) else c.

Definition char_lower (c : ascii) : ascii :=
  if is_ascii_upper c then ascii_of_nat (nat_of_ascii c + 32) else c.

(** Characters that may start, and continue, a Python identifier. *)
Definition is_id_start (c : ascii) : bool :=
  is_ascii_upper c || is_ascii_lower c || (c =? underscore)%char.

Definition is_id_continue (c : ascii) : bool :=
  is_id_start c || is_ascii_digit c.

(** ** Strings *)

Fixpoint str_map (f : ascii -> ascii) (s : string) : string :=
  match s with
  | EmptyString => EmptyString
  | String c r => String (f c) (str_map f r)
  end.

Definition str_forallb (p : ascii -> bool) (s : string) : bool :=
  forallb p (list_ascii_of_string s).

(** [s] contains no occurrence of the character [c]. *)
Definition str_lacks (c : ascii) (s : string) : bool :=
  str_forallb (fun x => negb (x =? c)%char) s.

Definition py_upper (s : string) : string := str_map char_upper s.
Definition py_lower (s : string) : string := str_map char_lower s.

(** [s.capitalize()]: first character upper-cased, the rest lower-cased. *)
Definition py_capitalize (s : string) : string :=
  match s with
  | EmptyString => EmptyString
  | String c r => String (char_upper c) (py_lower r)
  end.

(** [s.split(sep)]: the first part and the parts after each separator. *)
Fixpoint py_split_aux (sep : ascii) (s : string) : string * list string :=
  match s with
  | EmptyString => (EmptyString, [])
  | String c r =>
      let (p, ps) := py_split_aux sep r in
      if (c =? sep)%char then (EmptyString, p :: ps) else (String c p, ps)
  end.

Definition py_split (sep : ascii) (s : string) : list string :=
  let (p, ps) := py_split_aux sep s in p :: ps.

(** ['sep'.join(l)]. *)
Definition py_join (sep : string) (l : list string) : string :=
  String.concat sep l.

(** [s.isidentifier()]. *)
Definition py_isidentifier (s : string) : bool :=
  match s with
  | EmptyString => false
  | String c r => is_id_start c && str_forallb is_id_continue r
  end.

(** [s[0]] as a one-character string, and [s[1:]]. *)
Definition py_getitem0 (s : string) : result string :=
  match s with
  | EmptyString => Raise IndexError
  | String c _ => Ok (String c EmptyString)
  end.

Definition py_slice1 (s : string) : string :=
  match s with
  | EmptyString => EmptyString
  | String _ r => r
  end.

(** ['s' * n]. *)
Fixpoint py_repeat (s : string) (n : nat) : string :=
  match n with
  | O => EmptyString
  | S n' => s +:+ py_repeat s n'
  end.

(** ** Lemmas *)

Lemma list_ascii_of_string_app (s1 s2 : string) :
  list_ascii_of_string (s1 +:+ s2) = list_ascii_of_string s1 ++ list_ascii_of_string s2.
Proof.
  induction s1 as [|c s IH]; [done |].
  rewrite str_app_String; simpl. by rewrite IH.
Qed.

Lemma str_forallb_app p (s1 s2 : string) :
  str_forallb p (s1 +:+ s2) = str_forallb p s1 && str_forallb p s2.
Proof. unfold str_forallb. by rewrite list_ascii_of_string_app, forallb_app. Qed.

Lemma str_forallb_String p c (s : string) :
  str_forallb p (String c s) = p c && str_forallb p s.
Proof. reflexivity. Qed.

Lemma str_forallb_concat p sep (l : list string) :
  str_forallb p sep = true -> Forall (fun s => str_forallb p s = true) l ->
  str_forallb p (String.concat sep l) = true.
Proof.
  intros Hsep Hl. induction Hl as [|x l Hx Hl IH]; [done |].
  destruct l as [|y l]; [done |].
  change (String.concat sep (x :: y :: l)) with (x +:+ sep +:+ String.concat sep (y :: l)).
  by rewrite !str_forallb_app, Hx, Hsep, IH.
Qed.

Lemma str_forallb_map p f (s : string) :
  (forall c, p (f c) = true) -> str_forallb p (str_map f s) = true.
Proof.
  intros Hf. induction s as [|c s IH]; [done |].
  change (str_map f (String c s)) with (String (f c) (str_map f s)).
  by rewrite str_forallb_String, Hf, IH.
Qed.

Lemma str_forallb_impl (p q : ascii -> bool) (s : string) :
  (forall c, p c = true -> q c = true) ->
  str_forallb p s = true -> str_forallb q s = true.
Proof.
  intros Hpq. induction s as [|c s IH]; [done |].
  rewrite !str_forallb_String. intros [Hc Hs]%andb_prop.
  by rewrite Hpq, IH.
Qed.

(** The ASCII case mappings, checked on all 256 byte values. *)
Lemma char_upper_underscore c : (char_upper c =? underscore)%char = (c =? underscore)%char.
Proof. destruct c as [[] [] [] [] [] [] [] []]; reflexivity. Qed.

Lemma char_lower_underscore c : (char_lower c =? underscore)%char = (c =? underscore)%char.
Proof. destruct c as [[] [] [] [] [] [] [] []]; reflexivity. Qed.

Lemma char_lower_upper c : char_lower (char_upper c) = char_lower c.
Proof. destruct c as [[] [] [] [] [] [] [] []]; reflexivity. Qed.

Lemma char_lower_idem c : char_lower (char_lower c) = char_lower c.
Proof. destruct c as [[] [] [] [] [] [] [] []]; reflexivity. Qed.

Lemma char_upper_id_start c : is_id_start (char_upper c) = is_id_start c.
Proof. destruct c as [[] [] [] [] [] [] [] []]; reflexivity. Qed.

Lemma char_lower_id_continue c : is_id_continue (char_lower c) = is_id_continue c.
Proof. destruct c as [[] [] [] [] [] [] [] []]; reflexivity. Qed.

Lemma char_upper_id_continue c : is_id_continue (char_upper c) = is_id_continue c.
Proof. destruct c as [[] [] [] [] [] [] [] []]; reflexivity. Qed.

Lemma py_capitalize_id_continue s :
  str_forallb is_id_continue (py_capitalize s) = str_forallb is_id_continue s.
Proof.
  destruct s as [|c s]; [done |]. unfold py_capitalize. rewrite !str_forallb_String.
  rewrite char_upper_id_continue. f_equal. unfold py_lower.
  induction s as [|x s IH]; [done |]. cbn [str_map]. by rewrite !str_forallb_String, char_lower_id_continue, IH.
Qed.

Lemma py_lower_upper (s : string) : py_lower (py_upper s) = py_lower s.
Proof.
  unfold py_lower, py_upper in *. induction s as [|c s IH]; [done |].
  cbn [str_map]. by rewrite char_lower_upper, IH.
Qed.

Lemma py_lower_app (s1 s2 : string) : py_lower (s1 +:+ s2) = py_lower s1 +:+ py_lower s2.
Proof.
  unfold py_lower in *. induction s1 as [|c s IH]; [done |].
  rewrite str_app_String. cbn [str_map]. by rewrite IH.
Qed.

Lemma str_lacks_map f c s :
  (forall x, (f x =? c)%char = (x =? c)%char) ->
  str_lacks c (str_map f s) = str_lacks c s.
Proof.
  intros Hf. induction s as [|x s IH]; [done |].
  unfold str_lacks in *. cbn [str_map]. rewrite !str_forallb_String. by rewrite Hf, IH.
Qed.

Lemma py_capitalize_lacks_underscore s :
  str_lacks underscore (py_capitalize s) = str_lacks underscore s.
Proof.
  destruct s as [|c s]; [done |]. unfold py_capitalize.
  unfold str_lacks. rewrite !str_forallb_String. rewrite char_upper_underscore. f_equal.
  apply (str_lacks_map char_lower underscore s), char_lower_underscore.
Qed.

(** No part produced by [split] contains the separator. *)
Lemma py_split_aux_lacks sep s :
  str_lacks sep (py_split_aux sep s).1 = true /\
  Forall (fun p => str_lacks sep p = true) (py_split_aux sep s).2.
Proof.
  induction s as [|c s IH]; simpl; [done |].
  destruct (py_split_aux sep s) as [p ps]; simpl in *. destruct IH as [Hp Hps].
  destruct (Ascii.eqb_spec c sep) as [->|Hne]; simpl.
  - split; [done | by constructor].
  - split; [| done]. unfold str_lacks. rewrite str_forallb_String.
    apply andb_true_intro; split; [| done]. apply negb_true_iff, Ascii.eqb_neq; done.
Qed.

Lemma py_split_lacks sep s : Forall (fun p => str_lacks sep p = true) (py_split sep s).
Proof.
  unfold py_split. pose proof (py_split_aux_lacks sep s) as [H1 H2].
  destruct (py_split_aux sep s). by constructor.
Qed.

(** A string without the separator splits into itself alone. *)
Lemma py_split_aux_lacks_id sep s :
  str_lacks sep s = true -> py_split_aux sep s = (s, []).
Proof.
  induction s as [|c s IH]; [done |]. unfold str_lacks. rewrite str_forallb_String.
  intros [Hc Hs]%andb_prop. simpl. rewrite IH by done.
  apply negb_true_iff in Hc. by rewrite Hc.
Qed.

Lemma py_split_lacks_id sep s : str_lacks sep s = true -> py_split sep s = [s].
Proof. intros H. unfold py_split. by rewrite py_split_aux_lacks_id. Qed.

(** [sep.join(s.split(sep)) == s]. *)
Lemma py_join_String_head sep c p (ps : list string) :
  py_join sep (String c p :: ps) = String c (py_join sep (p :: ps)).
Proof. destruct ps; reflexivity. Qed.

Lemma py_split_join sep s : py_join (String sep EmptyString) (py_split sep s) = s.
Proof.
  unfold py_split. induction s as [|c s IH]; [done |]. cbn [py_split_aux].
  destruct (py_split_aux sep s) as [p ps].
  destruct (Ascii.eqb_spec c sep) as [->|Hne].
  - change (py_join (String sep "") ("" :: p :: ps))
      with ("" +:+ String sep "" +:+ py_join (String sep "") (p :: ps)).
    by rewrite IH.
  - by rewrite py_join_String_head, IH.
Qed.

(** ** Joining lines *)

Lemma py_join_cons sep x (l : list string) :
  l <> [] -> py_join sep (x :: l) = x +:+ sep +:+ py_join sep l.
Proof. destruct l; [done | reflexivity]. Qed.

Lemma py_join_empty_cons x (l : list string) : py_join "" (x :: l) = x +:+ py_join "" l.
Proof. destruct l; [by rewrite str_app_nil_r | reflexivity]. Qed.

Lemma py_join_app sep (xs ys : list string) :
  xs <> [] -> ys <> [] ->
  py_join sep (xs ++ ys) = py_join sep xs +:+ sep +:+ py_join sep ys.
Proof.
  intros Hx Hy. induction xs as [|x xs IH]; [done |].
  destruct xs as [|x' xs]; cbn [app]; [by apply py_join_cons |].
  rewrite py_join_cons by done. rewrite app_comm_cons, IH by done.
  rewrite (py_join_cons sep x (x' :: xs)) by done. by rewrite !str_app_assoc.
Qed.

(** Joining a nested block as one element is joining its lines in place:
    this is why [fields.extend(inner_classes)] then ['\n'.join] prints
    every line of a nested class on its own line. *)
Lemma py_join_flatten sep (xs ys zs : list string) :
  ys <> [] ->
  py_join sep (xs ++ py_join sep ys :: zs) = py_join sep (xs ++ ys ++ zs).
Proof.
  intros Hy. induction xs as [|x xs IH]; cbn [app].
  - destruct zs as [|z zs]; [by rewrite app_nil_r |].
    rewrite py_join_cons by done. by rewrite py_join_app.
  - rewrite !py_join_cons by (destruct xs; [destruct ys|]; done).
    by rewrite IH.
Qed.

Lemma py_join_concat_map sep (xs : list string) (yss : list (list string)) (zs : list string) :
  Forall (fun ys => ys <> []) yss ->
  py_join sep (xs ++ map (py_join sep) yss ++ zs) = py_join sep (xs ++ List.concat yss ++ zs).
Proof.
  intros Hne. revert xs. induction Hne as [|ys yss Hys _ IH]; intros xs; [done |].
  simpl. rewrite py_join_flatten by done.
  rewrite app_assoc, IH, <- !app_assoc. reflexivity.
Qed.

#[export] Hint Rewrite py_lower_upper py_lower_app str_forallb_app str_forallb_String : j2a_rw.

(** [sep.join(ws).split(sep) == ws] when no word contains [sep]. *)
Lemma py_split_aux_app_lacks sep w r :
  str_lacks sep w = true ->
  py_split_aux sep (w +:+ r) = (w +:+ (py_split_aux sep r).1, (py_split_aux sep r).2).
Proof.
  induction w as [|c w IH]; [intros _; rewrite !str_app_nil_l; by destruct (py_split_aux sep r) |].
  unfold str_lacks. rewrite str_forallb_String. intros [Hc Hw]%andb_prop.
  rewrite str_app_String. cbn [py_split_aux]. rewrite IH by done.
  apply negb_true_iff in Hc. rewrite Hc. reflexivity.
Qed.

Lemma py_join_split sep (ws : list string) :
  ws <> [] -> Forall (fun w => str_lacks sep w = true) ws ->
  py_split sep (py_join (String sep EmptyString) ws) = ws.
Proof.
  intros Hne Hall. unfold py_split.
  induction Hall as [|w ws Hw Hws IH]; [done |].
  destruct ws as [|w' ws].
  - change (py_join _ [w]) with w. rewrite py_split_aux_lacks_id by done. reflexivity.
  - rewrite py_join_cons by done. rewrite py_split_aux_app_lacks by done.
    change (String sep "" +:+ py_join (String sep "") (w' :: ws))
      with (String sep (py_join (String sep "") (w' :: ws))).
    cbn [py_split_aux]. specialize (IH ltac:(done)).
    destruct (py_split_aux sep (py_join (String sep "") (w' :: ws))) as [p ps].
    rewrite Ascii.eqb_refl. simpl. injection IH as -> ->. by rewrite str_app_nil_r.
Qed.

Lemma is_id_start_continue c : is_id_start c = true -> is_id_continue c = true.
Proof. unfold is_id_continue. intros ->. reflexivity. Qed.

Lemma py_isidentifier_continue s :
  py_isidentifier s = true -> str_forallb is_id_continue s = true.
Proof.
  destruct s as [|c s]; [done |]. simpl. intros [Hc Hs]%andb_prop.
  rewrite str_forallb_String, Hs, is_id_start_continue by done. reflexivity.
Qed.

Lemma py_isidentifier_underscore s :
  py_isidentifier ("_" +:+ s) = str_forallb is_id_continue s.
Proof. reflexivity. Qed.

Lemma py_repeat_S_r s n : py_repeat s (S n) = py_repeat s n +:+ s.
Proof.
  induction n as [|n IH]; [exact (str_app_nil_r s) |].
  change (py_repeat s (S (S n)) = (s +:+ py_repeat s n) +:+ s).
  change (py_repeat s (S (S n))) with (s +:+ py_repeat s (S n)).
  by rewrite IH, str_app_assoc.
Qed.

Lemma str_lacks_app ch (s1 s2 : string) :
  str_lacks ch (s1 +:+ s2) = str_lacks ch s1 && str_lacks ch s2.
Proof. apply str_forallb_app. Qed.

(** ** Characters that case mapping and [split('_')] leave alone *)

(** A character that is neither an ASCII letter nor the underscore: the
    newline and the braces, for instance. *)
Definition inert (ch : ascii) : bool :=
  negb (is_ascii_upper ch) && negb (is_ascii_lower ch) && negb (ch =? underscore)%char.

Lemma char_upper_cases c :
  char_upper c = c \/ (is_ascii_lower c = true /\ is_ascii_upper (char_upper c) = true).
Proof. destruct c as [[] [] [] [] [] [] [] []]; cbn; auto. Qed.

Lemma char_lower_cases c :
  char_lower c = c \/ (is_ascii_upper c = true /\ is_ascii_lower (char_lower c) = true).
Proof. destruct c as [[] [] [] [] [] [] [] []]; cbn; auto. Qed.

Section inert.
Variable ch : ascii.
Hypothesis Hch : inert ch = true.

Lemma inert_not_upper : is_ascii_upper ch = false.
Proof. unfold inert in Hch. destruct (is_ascii_upper ch); [done | reflexivity]. Qed.

Lemma inert_not_lower : is_ascii_lower ch = false.
Proof. unfold inert in Hch. destruct (is_ascii_lower ch); [by rewrite andb_false_r in Hch | done]. Qed.

Lemma inert_not_underscore : (ch =? underscore)%char = false.
Proof. unfold inert in Hch. by destruct (ch =? underscore)%char; rewrite ?andb_false_r in Hch. Qed.

Lemma char_upper_eqb c : (char_upper c =? ch)%char = (c =? ch)%char.
Proof.
  destruct (char_upper_cases c) as [-> | [Hl Hu]]; [done |].
  pose proof inert_not_upper. pose proof inert_not_lower.
  destruct (Ascii.eqb_spec (char_upper c) ch), (Ascii.eqb_spec c ch); congruence.
Qed.

Lemma char_lower_eqb c : (char_lower c =? ch)%char = (c =? ch)%char.
Proof.
  destruct (char_lower_cases c) as [-> | [Hu Hl]]; [done |].
  pose proof inert_not_upper. pose proof inert_not_lower.
  destruct (Ascii.eqb_spec (char_lower c) ch), (Ascii.eqb_spec c ch); congruence.
Qed.

Lemma py_upper_lacks s : str_lacks ch (py_upper s) = str_lacks ch s.
Proof. apply str_lacks_map, char_upper_eqb. Qed.

Lemma py_lower_lacks s : str_lacks ch (py_lower s) = str_lacks ch s.
Proof. apply str_lacks_map, char_lower_eqb. Qed.

Lemma py_capitalize_lacks s : str_lacks ch (py_capitalize s) = str_lacks ch s.
Proof.
  destruct s as [|c s]; [done |]. unfold py_capitalize, str_lacks.
  rewrite !str_forallb_String, char_upper_eqb. f_equal. apply py_lower_lacks.
Qed.
End inert.

(** Every part of a joined string satisfies what the whole does. *)
Lemma str_forallb_concat_inv p sep (l : list string) :
  str_forallb p (String.concat sep l) = true -> Forall (fun s => str_forallb p s = true) l.
Proof.
  induction l as [|x l IH]; [constructor |]. destruct l as [|y l].
  - intros H. by repeat constructor.
  - change (String.concat sep (x :: y :: l)) with (x +:+ sep +:+ String.concat sep (y :: l)).
    rewrite !str_forallb_app. intros [Hx Hrest]%andb_prop. apply andb_prop in Hrest as [_ Hl].
    constructor; [done | by apply IH].
Qed.
