(* ===== verification/Json.v ===== *)
(** * Json: the value tree that [json.loads] hands to the program

    The program receives the Python objects [json.loads] builds: [None],
    [bool], [int], [float], [str], [list] and [dict] (insertion ordered).
    [json] is that tree, with a dict as the list of its items in the order
    [dict.items()] yields them.  Its induction principle reaches the values
    inside lists and dicts.  [isinstance] is Python's test on the runtime
    class of a value, in which [bool] is a subclass of [int]: the order of
    the tests in [infer_apex_type] depends on it. *)

From S2P Require Import Prelude.
From stdpp Require Import base list strings.
From Stdlib Require Import ZArith SpecFloat.

Open Scope py_scope.

Local Unset Elimination Schemes.

Inductive json : Type :=
| JNull
| JBool (b : bool)
| JInt (n : Z)
| JFloat (f : spec_float)
| JString (s : string)
| JArray (xs : list json)
| JObject (items : list (string * json)).

Local Set Elimination Schemes.

(** Induction with hypotheses on the elements of lists and dicts. *)
Section json_ind.
Variable P : json -> Prop.
Hypothesis H_null : P JNull.
Hypothesis H_bool : forall b, P (JBool b).
Hypothesis H_int : forall n, P (JInt n).
Hypothesis H_float : forall f, P (JFloat f).
Hypothesis H_string : forall s, P (JString s).
Hypothesis H_array : forall xs, Forall P xs -> P (JArray xs).
Hypothesis H_object : forall items, Forall (fun kv => P kv.2) items -> P (JObject items).

Fixpoint json_ind (v : json) : P v :=
  match v with
  | JNull => H_null
  | JBool b => H_bool b
  | JInt n => H_int n
  | JFloat f => H_float f
  | JString s => H_string s
  | JArray xs =>
      H_array xs
        ((fix go (l : list json) : Forall P l :=
            match l with
            | [] => Forall_nil_2 P
            | x :: l' => Forall_cons_2 P x l' (json_ind x) (go l')
            end) xs)
  | JObject items =>
      H_object items
        ((fix go (l : list (string * json)) : Forall (fun kv => P kv.2) l :=
            match l with
            | [] => Forall_nil_2 _
            | kv :: l' => Forall_cons_2 _ kv l' (json_ind kv.2) (go l')
            end) items)
  end.
End json_ind.

(** ** Python runtime classes *)

Inductive py_class : Type :=
| NoneType | PyBool | PyInt | PyFloat | PyStr | PyList | PyDict.

#[export] Instance py_class_eq_dec : EqDecision py_class.
Proof. solve_decision. Defined.

Definition type_of (v : json) : py_class :=
  match v with
  | JNull => NoneType
  | JBool _ => PyBool
  | JInt _ => PyInt
  | JFloat _ => PyFloat
  | JString _ => PyStr
  | JArray _ => PyList
  | JObject _ => PyDict
  end.

(** [issubclass]: reflexive, and [bool] derives from [int]. *)
Definition issubclass (c d : py_class) : bool :=
  bool_decide (c = d) || bool_decide (c = PyBool /\ d = PyInt).

Definition isinstance (v : json) (c : py_class) : bool :=
  issubclass (type_of v) c.

(** [Some items] for a dict, [None] for any other value. *)
Definition as_dict (v : json) : option (list (string * json)) :=
  match v with JObject items => Some items | _ => None end.

Lemma isinstance_dict v : isinstance v PyDict = true <-> exists items, v = JObject items.
Proof. destruct v; unfold isinstance, issubclass; simpl; split; naive_solver. Qed.

Lemma isinstance_bool_int b : isinstance (JBool b) PyInt = true.
Proof. reflexivity. Qed.

#[export] Hint Rewrite isinstance_bool_int : j2a_rw.

(** Induction along the walk of the generator: it recurses into the values
    of a dict, and into the first element of a list-valued entry.  The
    hypothesis for a dict may use the property of each value and of the
    first element of each list value. *)
Lemma json_walk_ind (P : json -> Prop) :
  (forall v, as_dict v = None -> P v) ->
  (forall items,
     Forall (fun kv => P kv.2 /\ forall v0 xs, kv.2 = JArray (v0 :: xs) -> P v0) items ->
     P (JObject items)) ->
  forall v, P v.
Proof.
  intros Hleaf Hobj v.
  enough (P v /\ forall v0 xs, v = JArray (v0 :: xs) -> P v0) by tauto.
  induction v as [| | | | | xs IH | items IH] using json_ind;
    try (split; [by apply Hleaf | done]).
  - split; [by apply Hleaf |]. intros v0 xs' [= ->].
    by apply Forall_cons in IH as [[? _] _].
  - split; [| done]. apply Hobj. done.
Qed.
