(* ===== verification/Sanitizer.v ===== *)
(** * Sanitizer: the Name Sanitizer of [src/json2apex.py] (lines 5-29)

    [APEX_KEYWORDS] is the constant set of Apex reserved words (a Python
    set literal, here a [gset string]); [to_camel_case] splits a key on
    ['_'] and capitalizes every part but the first; [is_apex_keyword]
    tests the lower-cased word against the set; [safe_field_name] prefixes
    an underscore when the camel-cased key is a keyword or not a Python
    identifier.  The theorems say what the sanitizer guarantees and what it
    does not (it is not injective: [w_p] and [w] followed by [p.capitalize()]
    collide; and the prefix makes an identifier only when the camel-cased
    key has identifier characters alone). *)

From S2P Require Import Prelude PyStr.
From stdpp Require Import base list strings gmap.
From Stdlib Require Import Ascii String.

Open Scope py_scope.

(** ** Definitions *)

(** [APEX_KEYWORDS = {...}] (lines 5-16). *)
Definition APEX_KEYWORDS_list : list string := [
  "abstract"; "activate"; "and"; "any"; "array"; "as"; "asc"; "autonomous"; "begin"; "bigdecimal"; "blob"; "boolean";
  "break"; "bulk"; "by"; "byte"; "case"; "cast"; "catch"; "char"; "class"; "collect"; "commit"; "const"; "continue";
  "convertcurrency"; "date"; "datetime"; "decimal"; "default"; "delete"; "desc"; "do"; "else"; "end"; "enum"; "exception";
  "exit"; "export"; "extends"; "false"; "final"; "finally"; "float"; "for"; "from"; "future"; "global"; "goto"; "group";
  "having"; "if"; "implements"; "import"; "inner"; "insert"; "instanceof"; "int"; "interface"; "into"; "join"; "like";
  "limit"; "list"; "long"; "loop"; "map"; "merge"; "new"; "not"; "null"; "nulls"; "number"; "object"; "of"; "on"; "or";
  "outer"; "override"; "package"; "parallel"; "pragma"; "private"; "protected"; "public"; "retrieve"; "return"; "rollback";
  "select"; "set"; "short"; "static"; "super"; "switch"; "synchronized"; "system"; "testmethod"; "then"; "this"; "throw";
  "time"; "transaction"; "transient"; "trigger"; "true"; "try"; "undelete"; "update"; "upsert"; "using"; "virtual"; "void";
  "webservice"; "when"; "where"; "while"; "with"; "without"
]%string.

Definition APEX_KEYWORDS : gset string := list_to_set APEX_KEYWORDS_list.

(** [parts = s.split('_')]; [parts[0] + ''.join(w.capitalize() for w in parts[1:])]
    (lines 18-20).  [split] never returns an empty list, so the [[]]
    branch, where Python's [parts[0]] would raise, is never taken. *)
Definition to_camel_case (s : string) : string :=
  match py_split underscore s with
  | [] => EmptyString
  | p0 :: rest => p0 +:+ py_join EmptyString (map py_capitalize rest)
  end.

(** A reference for [to_camel_case] as one left-to-right pass over the
    characters: underscores are dropped, the first part is copied, and in
    every later part the first character is upper-cased and the others
    lower-cased. *)
Inductive scan_state : Type := InFirst | PartStart | InPart.

Fixpoint camel_scan (st : scan_state) (s : string) : string :=
  match s with
  | EmptyString => EmptyString
  | String c r =>
      if (c =? underscore)%char then camel_scan PartStart r
      else match st with
           | InFirst => String c (camel_scan InFirst r)
           | PartStart => String (char_upper c) (camel_scan InPart r)
           | InPart => String (char_lower c) (camel_scan InPart r)
           end
  end.

(** [word.lower() in APEX_KEYWORDS] (lines 22-23). *)
Definition is_apex_keyword (word : string) : bool :=
  bool_decide (py_lower word ∈ APEX_KEYWORDS).
Arguments is_apex_keyword : simpl never.

(** Lines 25-29. *)
Definition safe_field_name (json_key : string) : string :=
  let camel := to_camel_case json_key in
  if is_apex_keyword camel || negb (py_isidentifier camel)
  then "_" +:+ camel
  else camel.

(** ** Lemmas *)

Lemma py_split_cons sep s : exists p ps, py_split sep s = p :: ps.
Proof. unfold py_split. destruct (py_split_aux sep s). eauto. Qed.

Lemma to_camel_case_lacks_underscore s : str_lacks underscore (to_camel_case s) = true.
Proof.
  unfold to_camel_case. pose proof (py_split_lacks underscore s) as Hall.
  destruct (py_split underscore s) as [|p0 rest]; [done |].
  apply Forall_cons in Hall as [Hp0 Hrest].
  unfold str_lacks in *. rewrite str_forallb_app, Hp0. simpl.
  apply str_forallb_concat; [done |].
  apply Forall_map. eapply Forall_impl; [exact Hrest |]. intros p Hp.
  pose proof (py_capitalize_lacks_underscore p) as Hc. unfold str_lacks in Hc.
  by rewrite Hc.
Qed.

Lemma to_camel_case_id s : str_lacks underscore s = true -> to_camel_case s = s.
Proof.
  intros H. unfold to_camel_case. rewrite py_split_lacks_id by done.
  apply str_app_nil_r.
Qed.

(** Every reserved word starts with a lower-case ASCII letter. *)
Lemma APEX_KEYWORDS_start w :
  w ∈ APEX_KEYWORDS -> exists c r, w = String c r /\ is_ascii_lower c = true.
Proof.
  unfold APEX_KEYWORDS. rewrite elem_of_list_to_set.
  intros Hw.
  assert (Forall (fun w => match w with String c _ => is_ascii_lower c = true | _ => False end)
            APEX_KEYWORDS_list) as Hall by (repeat constructor).
  rewrite Forall_forall in Hall. specialize (Hall w Hw).
  destruct w; [done | eauto].
Qed.

Lemma is_apex_keyword_underscore r : is_apex_keyword ("_" +:+ r) = false.
Proof.
  unfold is_apex_keyword. apply bool_decide_eq_false.
  intros (c & r' & Heq & Hc)%APEX_KEYWORDS_start.
  change ("_" +:+ r) with (String underscore r) in Heq.
  unfold py_lower in Heq. cbn [str_map] in Heq. injection Heq as <- _.
  discriminate Hc.
Qed.

#[export] Hint Resolve to_camel_case_lacks_underscore is_apex_keyword_underscore : j2a.

(** What the scan produces from each state, in terms of the parts that
    [split('_')] finds: the current part and the parts after it. *)
Definition scan_parts (st : scan_state) (pp : string * list string) : string :=
  match st with
  | InFirst => pp.1
  | PartStart => py_capitalize pp.1
  | InPart => py_lower pp.1
  end +:+ py_join EmptyString (map py_capitalize pp.2).

Lemma camel_scan_split st s : camel_scan st s = scan_parts st (py_split_aux underscore s).
Proof.
  revert st. induction s as [|c r IH]; intros st; [by destruct st |].
  cbn [camel_scan py_split_aux]. rewrite !IH.
  destruct (py_split_aux underscore r) as [p ps].
  destruct (Ascii.eqb c underscore);
    [destruct st; unfold scan_parts; cbn [fst snd map]; by rewrite py_join_empty_cons |].
  destruct st; reflexivity.
Qed.


(** ** Properties *)

(** The two branches of [safe_field_name] (lines 26-29). *)
Lemma safe_field_name_cases k :
  (safe_field_name k = to_camel_case k /\
     is_apex_keyword (to_camel_case k) = false /\ py_isidentifier (to_camel_case k) = true)
  \/ (safe_field_name k = "_" +:+ to_camel_case k /\
     (is_apex_keyword (to_camel_case k) = true \/ py_isidentifier (to_camel_case k) = false)).
Proof.
  unfold safe_field_name. generalize (to_camel_case k) as c. intros c.
  destruct (is_apex_keyword c), (py_isidentifier c); cbn [orb negb]; auto.
Qed.

(** C4: No sanitized field name is an Apex reserved word, in any letter case. *)
Theorem safe_field_name_not_keyword k : is_apex_keyword (safe_field_name k) = false.
Proof.
  destruct (safe_field_name_cases k) as [(-> & Hk & _) | (-> & _)];
    [exact Hk | apply is_apex_keyword_underscore].
Qed.

(** C27: The sanitized name is a legal identifier exactly when the camel-cased
    key consists of ASCII letters, digits and underscores: the underscore
    prefix does not repair any other character. *)
Theorem safe_field_name_isidentifier k :
  py_isidentifier (safe_field_name k) = str_forallb is_id_continue (to_camel_case k).
Proof.
  destruct (safe_field_name_cases k) as [(-> & _ & Hi) | (-> & _)].
  - by rewrite Hi, py_isidentifier_continue.
  - apply py_isidentifier_underscore.
Qed.

(** A snake_case key [w_w1_..._wn] becomes [w] followed by the capitalized
    [wi]: [user_id] is [userId]. *)
Theorem to_camel_case_snake (w : string) (ws : list string) :
  Forall (fun x => str_lacks underscore x = true) (w :: ws) ->
  to_camel_case (py_join "_" (w :: ws)) = w +:+ py_join "" (map py_capitalize ws).
Proof.
  intros Hall. unfold to_camel_case.
  change "_"%string with (String underscore EmptyString).
  by rewrite py_join_split.
Qed.

(** C23: Equivalence with the one-pass reference: [to_camel_case], written
    with [split], [capitalize] and [join], is the single left-to-right
    scan that drops every underscore, copies the characters before the
    first one, and upper-cases the first and lower-cases the other
    characters of every later part. *)
Theorem to_camel_case_scan k : to_camel_case k = camel_scan InFirst k.
Proof.
  rewrite camel_scan_split. unfold to_camel_case, py_split.
  by destruct (py_split_aux underscore k).
Qed.

(** Camel-casing removes every underscore, so it is idempotent. *)
Theorem to_camel_case_idempotent k : to_camel_case (to_camel_case k) = to_camel_case k.
Proof. apply to_camel_case_id, to_camel_case_lacks_underscore. Qed.

(** [to_camel_case_snake] applied to the key [user_id]. *)
Lemma to_camel_case_snake_witness :
  Forall (fun x => str_lacks underscore x = true) ["user"; "id"] /\
  to_camel_case (py_join "_" ["user"; "id"]) = "userId".
Proof.
  assert (H : Forall (fun x => str_lacks underscore x = true) ["user"; "id"])
    by (repeat constructor).
  split; [exact H |].
  rewrite (to_camel_case_snake "user" ["id"] H). reflexivity.
Defined.

(** Case mapping keeps the length of a string. *)
Lemma str_map_length f s : String.length (str_map f s) = String.length s.
Proof. induction s as [|c s IH]; [done |]. cbn [str_map String.length]. by rewrite IH. Qed.

Lemma py_capitalize_length s : String.length (py_capitalize s) = String.length s.
Proof. destruct s as [|c s]; [done |]. cbn [py_capitalize String.length]. unfold py_lower. by rewrite str_map_length. Qed.

(** The field name depends on the key only through its camel-cased form. *)
Lemma safe_field_name_camel k1 k2 :
  to_camel_case k1 = to_camel_case k2 -> safe_field_name k1 = safe_field_name k2.
Proof. unfold safe_field_name. by intros ->. Qed.

(** C28: Sanitization is not injective: for all words [w] and [p] without an
    underscore, the key [w_p] and the different key [w] followed by
    [p.capitalize()] give the same field name ([a_b] and [aB],
    [user_id] and [userId], [x_] and [x]), so an object with both keys
    gets a class that declares the same field twice. *)
Theorem safe_field_name_collision w p :
  str_lacks underscore w = true -> str_lacks underscore p = true ->
  w +:+ "_" +:+ p <> w +:+ py_capitalize p /\
  safe_field_name (w +:+ "_" +:+ p) = safe_field_name (w +:+ py_capitalize p).
Proof.
  intros Hw Hp. split.
  - intros Heq%(f_equal String.length). rewrite !str_app_length, py_capitalize_length in Heq.
    cbn [String.length] in Heq. lia.
  - apply safe_field_name_camel.
    rewrite (to_camel_case_id (w +:+ py_capitalize p))
      by (rewrite str_lacks_app, py_capitalize_lacks_underscore, Hw, Hp; reflexivity).
    exact (to_camel_case_snake w [p] (Forall_cons_2 _ _ _ Hw (Forall_cons_2 _ _ _ Hp (Forall_nil_2 _)))).
Qed.

Lemma safe_field_name_collision_witness :
  str_lacks underscore "a" = true /\ str_lacks underscore "b" = true /\
  "a" +:+ "_" +:+ "b" <> "a" +:+ py_capitalize "b" /\
  safe_field_name ("a" +:+ "_" +:+ "b") = safe_field_name ("a" +:+ py_capitalize "b").
Proof.
  split; [reflexivity | split; [reflexivity |]].
  apply (safe_field_name_collision "a" "b"); reflexivity.
Defined.
