(* ===== verification/TypeInfer.v ===== *)
(** * TypeInfer: the Type Inferrer of [src/json2apex.py] (lines 31-48)

    [infer_apex_type] is the chain of [isinstance] tests of the source, in
    its order, returning the text of an Apex type.  [apex_type] is the
    syntax of the types the program writes (the scalar types, [Object],
    [List<T>] and the name of a generated class), [render_type] prints it,
    and [infer_type] is the rule table of spec section 4.2 on that syntax.
    The refinement theorem says the code prints exactly what the table
    prescribes; it depends on testing [bool] before [int], since in Python
    [isinstance(True, int)] holds. *)

From S2P Require Import Prelude PyStr Json.
From stdpp Require Import base list strings.
From Stdlib Require Import Ascii String.

Open Scope py_scope.

(** ** The code *)

(** Lines 31-48. *)
Fixpoint infer_apex_type (value : json) : string :=
  if isinstance value PyStr then "String"
  else if isinstance value PyBool then "Boolean"
  else if isinstance value PyInt then "Integer"
  else if isinstance value PyFloat then "Decimal"
  else if isinstance value PyList then
    match value with
    | JArray (v0 :: _) => "List<" +:+ infer_apex_type v0 +:+ ">"
    | _ => "List<Object>"
    end
  else if isinstance value PyDict then "Object"
  else "Object".

(** ** Apex types *)

Inductive apex_type : Type :=
| TString
| TBoolean
| TInteger
| TDecimal
| TObject
| TList (elem : apex_type)
| TClass (name : string).

#[export] Instance apex_type_eq_dec : EqDecision apex_type.
Proof. solve_decision. Defined.

Fixpoint render_type (t : apex_type) : string :=
  match t with
  | TString => "String"
  | TBoolean => "Boolean"
  | TInteger => "Integer"
  | TDecimal => "Decimal"
  | TObject => "Object"
  | TList e => "List<" +:+ render_type e +:+ ">"
  | TClass n => n
  end.

(** The rule table of spec section 4.2: a list is typed by its first
    element, an empty list is [List<Object>], and a dict or [None] at a
    leaf is [Object]. *)
Fixpoint infer_type (v : json) : apex_type :=
  match v with
  | JString _ => TString
  | JBool _ => TBoolean
  | JInt _ => TInteger
  | JFloat _ => TDecimal
  | JArray (v0 :: _) => TList (infer_type v0)
  | JArray [] => TList TObject
  | JObject _ => TObject
  | JNull => TObject
  end.

(** ** Properties *)

(** The isinstance chain of [infer_apex_type] prints the table
    [infer_type]: the equation the generator's refinement rewrites with. *)
Lemma infer_apex_type_render v : infer_apex_type v = render_type (infer_type v).
Proof.
  induction v as [| | | | | xs IH | items _] using json_ind; try reflexivity.
  destruct xs as [|v0 xs]; [reflexivity |].
  apply Forall_cons in IH as [IH _]. simpl. by rewrite IH.
Qed.

(** C5: Refinement: the text [infer_apex_type] returns is the printing of the
    type the rule table prescribes, for every JSON value; in particular a
    boolean is [Boolean], although Python also counts it as an [int]. *)
Theorem infer_apex_type_refines v : infer_apex_type v = render_type (infer_type v).
Proof. exact (infer_apex_type_render v). Qed.

#[export] Hint Rewrite infer_apex_type_render : j2a_rw.
