(* ===== verification/ClassGen.v ===== *)
(** * ClassGen: the Class Tree Generator of [src/json2apex.py] (lines 50-88)

    [generate_apex_class name json_data indent is_root] as written: it
    derives the class name ([name[0].upper() + to_camel_case(name[1:])]),
    appends the header to [fields], runs the [for] loop over
    [json_data.items()] ([generate_fields], parameterised by the recursive
    call so that it is a definition of its own), adds the root-only helper
    methods, extends [fields] with [inner_classes], closes the brace and
    joins everything with newlines.  [IndexError] from [name[0]] or
    [key[0]] on an empty string, and [AttributeError] from [.items()] on a
    value that is not a dict, propagate as [Raise].  The theorems about the
    output are in [ClassDecl], through the refinement theorem. *)

From S2P Require Import Prelude PyStr Json Sanitizer TypeInfer.
From stdpp Require Import base list strings.
From Stdlib Require Import Ascii String.

Open Scope py_scope.

(** ['    '], one level of indentation. *)
Definition INDENT : string := "    ".

(** [name[0].upper() + to_camel_case(name[1:])] (lines 54, 63, 68). *)
Definition class_name_of (name : string) : result string :=
  let* c := py_getitem0 name in
  Ok (py_upper c +:+ to_camel_case (py_slice1 name)).

(** [f' // "{key}" -> {field_name}' if field_name != to_camel_case(key) else '']
    (line 60). *)
Definition rename_comment (key field_name : string) : string :=
  if String.eqb field_name (to_camel_case key) then ""
  else " // " +:+ dq +:+ key +:+ dq +:+ " -> " +:+ field_name.

(** [f'{indent_str}    public {T} {field_name};{comment}'] (lines 64, 69, 74). *)
Definition field_line (indent_str ty field_name comment : string) : string :=
  indent_str +:+ "    public " +:+ ty +:+ " " +:+ field_name +:+ ";" +:+ comment.

(** [f'{indent_str}public class {class_name} ' + '{'] (line 56). *)
Definition class_header (indent_str class_name : string) : string :=
  indent_str +:+ "public class " +:+ class_name +:+ " {".

(** The lines appended when [is_root] holds (lines 77-84). *)
Definition root_helpers (indent_str class_name : string) : list string :=
  [ "";
    indent_str +:+ "    public static " +:+ class_name +:+ " fromJSON(String json) {";
    indent_str +:+ "        return (" +:+ class_name +:+ ") JSON.deserialize(json, "
               +:+ class_name +:+ ".class);";
    indent_str +:+ "    }";
    "";
    indent_str +:+ "    public String toJSON() {";
    indent_str +:+ "        return JSON.serialize(this);";
    indent_str +:+ "    }" ].

(** The [for key, value in json_data.items()] loop (lines 58-74): the
    state is the pair of lists [fields] and [inner_classes]; [gen] is the
    recursive call [generate_apex_class]. *)
Section generate_fields.
Variable gen : string -> json -> nat -> bool -> result string.

Fixpoint generate_fields (indent : nat) (indent_str : string)
    (items : list (string * json)) (fields inner_classes : list string)
    : result (list string * list string) :=
  match items with
  | [] => Ok (fields, inner_classes)
  | (key, value) :: rest =>
      let field_name := safe_field_name key in
      let comment := rename_comment key field_name in
      if isinstance value PyDict then
        let* nested_class_name := class_name_of key in
        let* nested_code := gen key value (S indent) false in
        generate_fields indent indent_str rest
          (fields ++ [field_line indent_str nested_class_name field_name comment])
          (inner_classes ++ [nested_code])
      else
        match value with
        | JArray (v0 :: _) =>
            if isinstance v0 PyDict then
              let* nested_class_name := class_name_of key in
              let* nested_code := gen key v0 (S indent) false in
              generate_fields indent indent_str rest
                (fields ++ [field_line indent_str ("List<" +:+ nested_class_name +:+ ">")
                              field_name comment])
                (inner_classes ++ [nested_code])
            else
              generate_fields indent indent_str rest
                (fields ++ [field_line indent_str (infer_apex_type value) field_name comment])
                inner_classes
        | _ =>
            generate_fields indent indent_str rest
              (fields ++ [field_line indent_str (infer_apex_type value) field_name comment])
              inner_classes
        end
  end.
End generate_fields.

(** Lines 50-88. *)
Fixpoint generate_apex_class (name : string) (json_data : json) (indent : nat)
    (is_root : bool) {struct json_data} : result string :=
  let indent_str := py_repeat INDENT indent in
  let* class_name := class_name_of name in
  match json_data with
  | JObject items =>
      let* (fields, inner_classes) :=
        generate_fields generate_apex_class indent indent_str items
          [class_header indent_str class_name] [] in
      let fields := if is_root then fields ++ root_helpers indent_str class_name else fields in
      Ok (py_join nl (fields ++ inner_classes ++ [indent_str +:+ "}"]))
  | _ => Raise AttributeError
  end.

(** ** Unfolding lemmas *)

Lemma class_name_of_String c r :
  class_name_of (String c r) = Ok (py_upper (String c EmptyString) +:+ to_camel_case r).
Proof. reflexivity. Qed.

Lemma class_name_of_empty : class_name_of "" = Raise IndexError.
Proof. reflexivity. Qed.

Lemma class_name_of_is_ok name : is_ok (class_name_of name) = bool_decide (name <> "").
Proof. destruct name; reflexivity. Qed.

Lemma class_name_of_Raise name e : class_name_of name = Raise e -> e = IndexError /\ name = "".
Proof. destruct name; cbn; [by injection 1 | discriminate]. Qed.

#[export] Hint Rewrite class_name_of_String : j2a_rw.

(** ** Properties *)

(** C25: Rename comment (spec sections 4.1 and 8): the field line carries the
    comment [// "key" -> name] exactly when the sanitizer prefixed the
    camel-cased key, that is when it is a reserved word or not an
    identifier. *)
Theorem rename_comment_iff key :
  rename_comment key (safe_field_name key) = ""
  <-> is_apex_keyword (to_camel_case key) = false /\ py_isidentifier (to_camel_case key) = true.
Proof.
  unfold rename_comment.
  destruct (safe_field_name_cases key) as [(-> & Hk & Hi) | (-> & Hki)].
  - rewrite String.eqb_refl. split; [intros _; split; assumption | reflexivity].
  - destruct (String.eqb_spec ("_" +:+ to_camel_case key) (to_camel_case key)) as [Heq | _].
    + exfalso. by apply (str_app_neq_self "_" (to_camel_case key)).
    + split; [done |]. intros [Hk Hi]. destruct Hki as [Hki | Hki]; congruence.
Qed.

(** A word of a snake_case key: lower-case ASCII letters and digits. *)
Definition snake_word (w : string) : bool :=
  str_forallb (fun c => is_ascii_lower c || is_ascii_digit c) w.

Lemma snake_char_not_underscore c :
  is_ascii_lower c || is_ascii_digit c = true -> negb (c =? underscore)%char = true.
Proof. destruct c as [[] [] [] [] [] [] [] []]; vm_compute; intros H; first [reflexivity | discriminate H]. Qed.

Lemma snake_char_id_continue c :
  is_ascii_lower c || is_ascii_digit c = true -> is_id_continue c = true.
Proof. destruct c as [[] [] [] [] [] [] [] []]; vm_compute; intros H; first [reflexivity | discriminate H]. Qed.

(** C26: snake_case keys (spec section 8): a key [w_w1_..._wn] whose words are
    lower-case letters and digits, starting with a letter, keeps its
    camel-cased name [w W1 ... Wn] with no underscore prefix and no rename
    comment, provided the camel-cased name is not a reserved word in lower
    case.  The proviso is needed: the reserved-word test lower-cases its
    argument, so [date_time], camel-cased [dateTime], is the reserved word
    [datetime] and becomes [_dateTime] with a rename comment. *)
Theorem safe_field_name_snake c r ws :
  is_ascii_lower c = true -> Forall (fun x => snake_word x = true) (String c r :: ws) ->
  is_apex_keyword (String c r +:+ py_join "" (map py_capitalize ws)) = false ->
  safe_field_name (py_join "_" (String c r :: ws)) = String c r +:+ py_join "" (map py_capitalize ws) /\
  rename_comment (py_join "_" (String c r :: ws)) (safe_field_name (py_join "_" (String c r :: ws))) = "".
Proof.
  intros Hc Hall Hkw. set (key := py_join "_" (String c r :: ws)).
  assert (Hcamel : to_camel_case key = String c r +:+ py_join "" (map py_capitalize ws)).
  { unfold key, to_camel_case. change "_"%string with (String underscore EmptyString).
    rewrite py_join_split; [done | done |]. eapply Forall_impl; [exact Hall |].
    intros x Hx. exact (str_forallb_impl _ _ x snake_char_not_underscore Hx). }
  assert (Hid : py_isidentifier (to_camel_case key) = true).
  { rewrite Hcamel, str_app_String. apply Forall_cons in Hall as [Hw Hws].
    unfold snake_word in Hw. rewrite str_forallb_String in Hw. apply andb_prop in Hw as [_ Hr].
    cbn [py_isidentifier]. unfold is_id_start. rewrite Hc, orb_true_r. cbn [andb].
    rewrite str_forallb_app, (str_forallb_impl _ _ r snake_char_id_continue Hr). cbn [andb].
    apply str_forallb_concat; [done |]. apply Forall_map. eapply Forall_impl; [exact Hws |].
    intros x Hx. rewrite py_capitalize_id_continue. exact (str_forallb_impl _ _ x snake_char_id_continue Hx). }
  destruct (safe_field_name_cases key) as [(Hs & _ & _) | (_ & [Hk | Hi])].
  - rewrite Hs. split; [exact Hcamel |]. unfold rename_comment. by rewrite String.eqb_refl.
  - rewrite Hcamel in Hk. congruence.
  - congruence.
Qed.

Lemma safe_field_name_snake_witness :
  safe_field_name (py_join "_" ["user"; "id"]) = "user" +:+ py_join "" (map py_capitalize ["id"]) /\
  rename_comment (py_join "_" ["user"; "id"]) (safe_field_name (py_join "_" ["user"; "id"])) = "".
Proof.
  apply (safe_field_name_snake "u"%char "ser" ["id"]); [reflexivity | repeat constructor |].
  vm_compute. reflexivity.
Defined.
