(* ===== verification/ClassDecl.v ===== *)
(** * ClassDecl: the generator as "build a class tree, then print it"

    Spec section 9 recommends reading [generate_apex_class] as two passes:
    a pure construction of a Class Declaration (name, ordered field
    descriptors, root flag, nested declarations; spec section 3) and a
    printing pass.  [build_class] and [build_fields] are the construction
    (the decisions of lines 54-76 without the text), [render_class] is the
    printing (the format strings of lines 56-87).  The refinement theorem
    [generate_apex_class_refines] shows that the code of [ClassGen] is
    exactly [render_class] after [build_class], errors included, so that
    the structural theorems proved here on the tree are theorems about the
    program's output.  [build_fields_cons] takes the loop one item at a
    time and [build_class_rect] is induction on built trees: the
    structural theorems are proved with them. *)

From S2P Require Import Prelude PyStr Json Sanitizer TypeInfer ClassGen.
From stdpp Require Import base list strings.
From Stdlib Require Import Ascii String.

Open Scope py_scope.

(** ** Class declarations *)

(** A Field Descriptor: original key, sanitized identifier, type. *)
Record field_desc : Type := mk_field {
  fd_key : string;
  fd_name : string;
  fd_type : apex_type
}.

Local Unset Elimination Schemes.

(** A Class Declaration: name, fields, root flag and nested classes. *)
Inductive class_decl : Type :=
| mk_class (cd_name : string) (cd_fields : list field_desc) (cd_root : bool)
           (cd_nested : list class_decl).

Local Set Elimination Schemes.

Definition cd_name (c : class_decl) : string := let 'mk_class n _ _ _ := c in n.
Definition cd_fields (c : class_decl) : list field_desc := let 'mk_class _ fs _ _ := c in fs.
Definition cd_root (c : class_decl) : bool := let 'mk_class _ _ r _ := c in r.
Definition cd_nested (c : class_decl) : list class_decl := let 'mk_class _ _ _ cs := c in cs.

Section class_decl_ind.
Variable P : class_decl -> Prop.
Hypothesis H_class : forall n fs r cs, Forall P cs -> P (mk_class n fs r cs).

Fixpoint class_decl_ind (c : class_decl) : P c :=
  match c with
  | mk_class n fs r cs =>
      H_class n fs r cs
        ((fix go (l : list class_decl) : Forall P l :=
            match l with
            | [] => Forall_nil_2 P
            | c' :: l' => Forall_cons_2 P c' l' (class_decl_ind c') (go l')
            end) cs)
  end.
End class_decl_ind.

(** ** Construction pass *)

Section build_fields.
Variable build : string -> json -> bool -> result class_decl.

Fixpoint build_fields (items : list (string * json))
    : result (list field_desc * list class_decl) :=
  match items with
  | [] => Ok ([], [])
  | (key, value) :: rest =>
      let field_name := safe_field_name key in
      if isinstance value PyDict then
        let* nested_class_name := class_name_of key in
        let* nested := build key value false in
        let* (fs, cs) := build_fields rest in
        Ok (mk_field key field_name (TClass nested_class_name) :: fs, nested :: cs)
      else
        match value with
        | JArray (v0 :: _) =>
            if isinstance v0 PyDict then
              let* nested_class_name := class_name_of key in
              let* nested := build key v0 false in
              let* (fs, cs) := build_fields rest in
              Ok (mk_field key field_name (TList (TClass nested_class_name)) :: fs,
                  nested :: cs)
            else
              let* (fs, cs) := build_fields rest in
              Ok (mk_field key field_name (infer_type value) :: fs, cs)
        | _ =>
            let* (fs, cs) := build_fields rest in
            Ok (mk_field key field_name (infer_type value) :: fs, cs)
        end
  end.
End build_fields.

Fixpoint build_class (name : string) (json_data : json) (is_root : bool)
    {struct json_data} : result class_decl :=
  let* class_name := class_name_of name in
  match json_data with
  | JObject items =>
      let* (fs, cs) := build_fields build_class items in
      Ok (mk_class class_name fs is_root cs)
  | _ => Raise AttributeError
  end.

(** Every key that introduces a nested class along the walk (a dict value,
    or a list whose first element is a dict) is non-empty, so that
    [key[0]] succeeds. *)
Section items_keys_ok.
Variable keys_ok : json -> bool.

Fixpoint items_keys_ok (items : list (string * json)) : bool :=
  match items with
  | [] => true
  | (key, value) :: rest =>
      (if isinstance value PyDict then bool_decide (key <> "") && keys_ok value
       else match value with
            | JArray (v0 :: _) =>
                if isinstance v0 PyDict then bool_decide (key <> "") && keys_ok v0 else true
            | _ => true
            end)
      && items_keys_ok rest
  end.
End items_keys_ok.

Fixpoint class_keys_ok (v : json) : bool :=
  match v with
  | JObject items => items_keys_ok class_keys_ok items
  | _ => true
  end.

(** The objects the generator visits: the object itself, and recursively
    every dict value and every dict first element of a list value. *)
Section items_objects.
Variable count : json -> nat.

Fixpoint items_objects (items : list (string * json)) : nat :=
  match items with
  | [] => 0
  | (_, value) :: rest =>
      (if isinstance value PyDict then count value
       else match value with
            | JArray (v0 :: _) => if isinstance v0 PyDict then count v0 else 0
            | _ => 0
            end)
      + items_objects rest
  end.
End items_objects.

Fixpoint walk_objects (v : json) : nat :=
  match v with
  | JObject items => S (items_objects walk_objects items)
  | _ => 0
  end.

(** The number of class declarations in a tree. *)
Fixpoint count_classes (c : class_decl) : nat :=
  match c with
  | mk_class _ _ _ cs => S (sum_list_with count_classes cs)
  end.

(** ** Printing pass *)

Definition render_field (indent_str : string) (f : field_desc) : string :=
  field_line indent_str (render_type (fd_type f)) (fd_name f)
    (rename_comment (fd_key f) (fd_name f)).

Fixpoint render_class (indent : nat) (c : class_decl) : list string :=
  let indent_str := py_repeat INDENT indent in
  match c with
  | mk_class n fs r cs =>
      class_header indent_str n :: map (render_field indent_str) fs
      ++ (if r then root_helpers indent_str n else [])
      ++ List.concat (map (render_class (S indent)) cs)
      ++ [indent_str +:+ "}"]
  end.

(** The text of a rendered class. *)
Definition render_text (indent : nat) (c : class_decl) : string :=
  py_join nl (render_class indent c).

(** ** Refinement: the code prints the tree it builds *)

(** The property of one value: generating its class is printing the class
    built from it, for every name, depth and root flag. *)
Definition gen_refines (v : json) : Prop :=
  forall name indent is_root,
    generate_apex_class name v indent is_root
    = res_map (render_text indent) (build_class name v is_root).

Lemma render_class_cons indent c :
  exists l ls, render_class indent c = l :: ls.
Proof. destruct c. simpl. eauto. Qed.

Lemma render_class_nonempty indent c : render_class indent c <> [].
Proof. by destruct (render_class_cons indent c) as (? & ? & ->). Qed.

(** The loop: after the items, [fields] has gained one printed line per
    field descriptor and [inner_classes] one printed block per nested
    declaration. *)
Lemma generate_fields_refines indent items fields inner_classes :
  Forall (fun kv => gen_refines kv.2 /\
                    forall v0 xs, kv.2 = JArray (v0 :: xs) -> gen_refines v0) items ->
  generate_fields generate_apex_class indent (py_repeat INDENT indent) items fields inner_classes
  = res_map (fun fc => (fields ++ map (render_field (py_repeat INDENT indent)) fc.1,
                        inner_classes ++ map (render_text (S indent)) fc.2))
            (build_fields build_class items).
Proof.
  intros Hall. revert fields inner_classes.
  induction Hall as [|[key value] rest [Hv Hv0] _ IH]; intros fields inner_classes.
  { cbn. by rewrite !app_nil_r. }
  cbn [generate_fields build_fields fst snd] in *.
  destruct (isinstance value PyDict) eqn:Hd.
  - destruct (class_name_of key) as [n|e]; [| done]. cbn [res_bind].
    rewrite Hv. destruct (build_class key value false) as [c|e]; [| done]. cbn [res_bind res_map].
    rewrite IH. destruct (build_fields build_class rest) as [[fs cs]|e]; [| done].
    cbn. by rewrite <- !app_assoc.
  - destruct value as [| | | | | [|v0 xs] |]; try discriminate Hd;
      try (rewrite IH, infer_apex_type_render;
           destruct (build_fields build_class rest) as [[fs cs]|e]; [| done];
           cbn; by rewrite <- !app_assoc).
    destruct (isinstance v0 PyDict).
    + destruct (class_name_of key) as [n|e]; [| done]. cbn [res_bind].
      rewrite (Hv0 v0 xs eq_refl). destruct (build_class key v0 false) as [c|e]; [| done].
      cbn [res_bind res_map]. rewrite IH.
      destruct (build_fields build_class rest) as [[fs cs]|e]; [| done].
      cbn. by rewrite <- !app_assoc.
    + rewrite IH, infer_apex_type_render.
      destruct (build_fields build_class rest) as [[fs cs]|e]; [| done].
      cbn. by rewrite <- !app_assoc.
Qed.

(** The printed nested blocks, joined as single elements, are their lines. *)
Lemma py_join_nested xs cs ys indent :
  py_join nl (xs ++ map (render_text indent) cs ++ ys)
  = py_join nl (xs ++ List.concat (map (render_class indent) cs) ++ ys).
Proof.
  unfold render_text. rewrite <- (map_map (render_class indent) (py_join nl)).
  apply py_join_concat_map. apply Forall_map, Forall_forall.
  intros c _. apply render_class_nonempty.
Qed.

(** The refinement, by induction along the generator's walk. *)
Lemma gen_build_refinement v : gen_refines v.
Proof.
  apply json_walk_ind; clear v.
  - intros v Hv name indent is_root.
    destruct v; try discriminate Hv; cbn [generate_apex_class build_class];
      by destruct (class_name_of name).
  - intros items Hall name indent is_root. cbn [generate_apex_class build_class].
    destruct (class_name_of name) as [cn|e]; [| done]. cbn [res_bind].
    rewrite generate_fields_refines by done.
    destruct (build_fields build_class items) as [[fs cs]|e]; [| done].
    cbn [res_bind res_map fst snd]. unfold render_text at 2. cbn [render_class].
    f_equal. rewrite app_nil_l.
    rewrite py_join_nested. f_equal.
    destruct is_root; cbn [app]; rewrite <- ?app_assoc; reflexivity.
Qed.

(** C1: Refinement (spec section 9): on every JSON value, name, depth and
    root flag, [generate_apex_class] returns the text of the class tree
    that [build_class] builds, printed by [render_class], and raises
    exactly when [build_class] raises, with the same exception. *)
Theorem generate_apex_class_refines name v indent is_root :
  generate_apex_class name v indent is_root
  = res_map (render_text indent) (build_class name v is_root).
Proof. apply gen_build_refinement. Qed.

(** ** When the generator raises *)

(** The outcome of building from [v] under [name]: success needs a
    non-empty name, a dict and non-empty class-introducing keys; a failure
    is [IndexError] when a name or key is empty, [AttributeError] when [v]
    is not a dict. *)
Definition build_outcome (v : json) : Prop :=
  forall name is_root,
    match build_class name v is_root with
    | Ok _ => name <> "" /\ isinstance v PyDict = true /\ class_keys_ok v = true
    | Raise e =>
        (e = IndexError /\ (name = "" \/ class_keys_ok v = false)) \/
        (e = AttributeError /\ name <> "" /\ isinstance v PyDict = false)
    end.

(** One nested class built under [key] from the dict [w]. *)
Lemma nested_outcome key w is_root :
  build_outcome w -> isinstance w PyDict = true ->
  match class_name_of key with
  | Ok _ => key <> "" /\
      match build_class key w is_root with
      | Ok _ => class_keys_ok w = true
      | Raise e => e = IndexError /\ class_keys_ok w = false
      end
  | Raise e => e = IndexError /\ key = ""
  end.
Proof.
  intros Hw Hd. destruct (class_name_of key) as [n|e] eqn:Hk.
  - assert (key <> "") as Hne.
    { intros ->. discriminate Hk. }
    split; [done |]. specialize (Hw key is_root). revert Hw.
    destruct (build_class key w is_root); intros Hw; [by destruct Hw as (_ & _ & ?) |].
    destruct Hw as [[-> [? | ?]] | (_ & _ & ?)]; [subst; congruence | done | congruence].
  - by apply class_name_of_Raise.
Qed.

(** Close a goal on boolean conjunctions from boolean hypotheses. *)
Ltac bool_finish :=
  repeat match goal with H : _ /\ _ |- _ => destruct H end;
  repeat match goal with
         | H : items_keys_ok ?f ?l = _ |- context [items_keys_ok ?f ?l] => rewrite H
         | H : class_keys_ok ?v = _ |- context [class_keys_ok ?v] => rewrite H
         end;
  rewrite ?andb_true_r, ?andb_false_r; try done.

(** A nested class built under [key] from the dict [w], inside the loop. *)
Ltac nested_case key w Hw Hd :=
  let r := lazymatch goal with |- context [build_class key w ?r] => r end in
  pose proof (nested_outcome key w r Hw Hd) as Hn;
  destruct (class_name_of key);
  [| destruct Hn as [-> ->]; cbn [res_bind];
     split; reflexivity];
  destruct Hn as [Hne Hn]; cbn [res_bind]; revert Hn;
  destruct (build_class key w r); intros Hn; cbn [res_bind];
  rewrite ?bool_decide_true by done; bool_finish.

Lemma build_fields_outcome items :
  Forall (fun kv => build_outcome kv.2 /\
                    forall v0 xs, kv.2 = JArray (v0 :: xs) -> build_outcome v0) items ->
  match build_fields build_class items with
  | Ok _ => items_keys_ok class_keys_ok items = true
  | Raise e => e = IndexError /\ items_keys_ok class_keys_ok items = false
  end.
Proof.
  induction 1 as [|[key value] rest [Hv Hv0] _ IH]; [done |].
  cbn [build_fields items_keys_ok fst snd] in *. revert IH.
  destruct (build_fields build_class rest) as [[fs cs]|e'] eqn:Hrest; intros IH.
  all: destruct (isinstance value PyDict) eqn:Hd; [nested_case key value Hv Hd |].
  all: destruct value as [| | | | | [|v0 xs] |]; try discriminate Hd; cbn [res_bind];
       try bool_finish.
  all: destruct (isinstance v0 PyDict) eqn:Hd0; cbn [res_bind]; try bool_finish.
  all: nested_case key v0 (Hv0 v0 xs eq_refl) Hd0.
Qed.

Lemma build_class_outcome v : build_outcome v.
Proof.
  apply json_walk_ind; clear v.
  - intros v Hv name is_root.
    destruct v; try discriminate Hv; cbn [build_class];
      destruct (class_name_of name) eqn:Hk; cbn [res_bind];
      try (right; split; [done | split; [intros ->; discriminate Hk | reflexivity]]);
      left; apply class_name_of_Raise in Hk; naive_solver.
  - intros items Hall name is_root. cbn [build_class].
    destruct (class_name_of name) eqn:Hk; cbn [res_bind].
    + assert (name <> "") as Hne by (intros ->; discriminate Hk).
      pose proof (build_fields_outcome items Hall) as H. revert H.
      destruct (build_fields build_class items) as [[fs cs]|e]; cbn [res_bind class_keys_ok];
        intros H; [done | naive_solver].
    + left. apply class_name_of_Raise in Hk. naive_solver.
Qed.

(** C2: Error behaviour of the generator: [generate_apex_class] succeeds only
    on a dict, under a non-empty name, when every key that introduces a
    nested class is non-empty; otherwise it raises [IndexError] (an empty
    name or key: [name[0]], [key[0]]) or, on a value that is not a dict,
    [AttributeError] ([.items()]).  It never raises [ValueError]. *)
Theorem generate_apex_class_outcome name v indent is_root :
  match generate_apex_class name v indent is_root with
  | Ok _ => name <> "" /\ isinstance v PyDict = true /\ class_keys_ok v = true
  | Raise e =>
      (e = IndexError /\ (name = "" \/ class_keys_ok v = false)) \/
      (e = AttributeError /\ name <> "" /\ isinstance v PyDict = false)
  end.
Proof.
  rewrite gen_build_refinement.
  pose proof (build_class_outcome v name is_root) as H. revert H.
  by destruct (build_class name v is_root).
Qed.

(** ** Structure of the built tree *)

(** The generated class a field refers to, if any. *)
Definition field_class (f : field_desc) : option string :=
  match fd_type f with
  | TClass n | TList (TClass n) => Some n
  | _ => None
  end.

(** The nesting invariant: the nested classes are, in order, the classes
    the fields refer to, none of them is a root, and the same holds below. *)
Fixpoint wf_nested (c : class_decl) : bool :=
  match c with
  | mk_class _ fs _ cs =>
      bool_decide (map cd_name cs = omap field_class fs)
      && forallb (fun c' => negb (cd_root c')) cs
      && forallb wf_nested cs
  end.

(** What one field must be, given its item [(key, value)] (spec 4.3). *)
Definition field_spec (kv : string * json) (f : field_desc) : Prop :=
  fd_key f = kv.1 /\ fd_name f = safe_field_name kv.1 /\
  match kv.2 with
  | JObject _ => exists n, class_name_of kv.1 = Ok n /\ fd_type f = TClass n
  | JArray (JObject _ :: _) =>
      exists n, class_name_of kv.1 = Ok n /\ fd_type f = TList (TClass n)
  | v => fd_type f = infer_type v
  end.

Lemma build_class_name name v is_root c :
  build_class name v is_root = Ok c -> class_name_of name = Ok (cd_name c) /\ cd_root c = is_root.
Proof.
  destruct v; cbn [build_class]; destruct (class_name_of name); cbn [res_bind]; try done.
  destruct (build_fields build_class _) as [[fs cs]|]; cbn [res_bind]; [| done].
  by intros [= <-].
Qed.

(** The item that introduces a nested class, with the object the class is
    built from: the value itself when it is a dict, the first element of a
    list value when that is a dict. *)
Definition nested_item (kv : string * json) : option (string * json) :=
  if isinstance kv.2 PyDict then Some kv
  else match kv.2 with
       | JArray (v0 :: _) => if isinstance v0 PyDict then Some (kv.1, v0) else None
       | _ => None
       end.

Lemma nested_item_eq key value :
  nested_item (key, value) =
  if isinstance value PyDict then Some (key, value)
  else match value with
       | JArray (v0 :: _) => if isinstance v0 PyDict then Some (key, v0) else None
       | _ => None
       end.
Proof. reflexivity. Qed.

(** A nested item keeps the key of its item. *)
Lemma nested_item_keys (Q : string -> Prop) items :
  Forall (fun kv => Q kv.1) items -> Forall (fun kw => Q kw.1) (omap nested_item items).
Proof.
  induction 1 as [|[key value] rest Hk _ IH]; [constructor |].
  rewrite omap_cons, nested_item_eq.
  destruct (isinstance value PyDict); [by constructor |].
  destruct value as [| | | | | [|v0 xs] |]; try done.
  destruct (isinstance v0 PyDict); [by constructor | done].
Qed.

(** The walk's induction hypothesis on the items gives the property of
    every nested object. *)
Lemma nested_items_Forall (P : json -> Prop) items :
  Forall (fun kv => P kv.2 /\ forall v0 xs, kv.2 = JArray (v0 :: xs) -> P v0) items ->
  Forall (fun kw => P kw.2) (omap nested_item items).
Proof.
  induction 1 as [|[key value] rest [Hv Hv0] _ IHr]; [constructor |].
  rewrite omap_cons, nested_item_eq. cbn [fst snd] in Hv, Hv0.
  destruct (isinstance value PyDict); [by constructor |].
  destruct value as [| | | | | [|v0 xs] |]; try done.
  destruct (isinstance v0 PyDict); [constructor; [exact (Hv0 v0 xs eq_refl) | done] | done].
Qed.

(** Every class-introducing key is non-empty and every nested object is
    valid, when the items are. *)
Lemma items_keys_ok_nested items :
  items_keys_ok class_keys_ok items = true ->
  Forall (fun kw => kw.1 <> "" /\ class_keys_ok kw.2 = true) (omap nested_item items).
Proof.
  induction items as [|[key value] rest IH]; [constructor |].
  cbn [items_keys_ok]. rewrite omap_cons, nested_item_eq, andb_true_iff. intros [Hk Hr].
  destruct (isinstance value PyDict).
  { apply andb_true_iff in Hk as [Hne Hv]. constructor; [| by apply IH].
    split; [by apply bool_decide_eq_true in Hne | done]. }
  destruct value as [| | | | | [|v0 xs] |]; try by apply IH.
  destruct (isinstance v0 PyDict); [| by apply IH].
  apply andb_true_iff in Hk as [Hne Hv]. constructor; [| by apply IH].
  split; [by apply bool_decide_eq_true in Hne | done].
Qed.

(** Nested items are dicts. *)
Lemma nested_item_dict items : Forall (fun kw => isinstance kw.2 PyDict = true) (omap nested_item items).
Proof.
  induction items as [|[key value] rest IH]; [constructor |].
  rewrite omap_cons, nested_item_eq. destruct (isinstance value PyDict) eqn:Hd; [by constructor |].
  destruct value as [| | | | | [|v0 xs] |]; try done.
  destruct (isinstance v0 PyDict) eqn:Hd0; [by constructor | done].
Qed.

(** ** The loop one item at a time, and induction on built trees *)

(** Go through a successful bind in the goal. *)
Ltac bind_ok :=
  repeat match goal with
  | |- context [res_bind ?m _] =>
      let H := fresh "Hb" in destruct m eqn:H; cbn [res_bind]; [| done]
  | x : (_ * _)%type |- _ => destruct x
  end.

(** One turn of the construction loop: a field that follows its item, and
    a nested class when the item introduces one. *)
Lemma build_fields_cons build key value rest fs cs :
  build_fields build ((key, value) :: rest) = Ok (fs, cs) ->
  exists f fs' cs', fs = f :: fs' /\ field_spec (key, value) f /\
    build_fields build rest = Ok (fs', cs') /\
    match nested_item (key, value) with
    | Some (k, w) => exists c, build k w false = Ok c /\ cs = c :: cs'
    | None => cs = cs'
    end.
Proof.
  cbn [build_fields]. rewrite nested_item_eq.
  destruct (isinstance value PyDict) eqn:Hd.
  { apply isinstance_dict in Hd as [its ->]. bind_ok. intros [= <- <-].
    do 3 eexists. split; [done | split; [unfold field_spec; cbn; eauto 6 | eauto]]. }
  destruct value as [| | | | | [|v0 xs] |]; try discriminate Hd;
    [.. | destruct (isinstance v0 PyDict) eqn:Hd0]; bind_ok; intros [= <- <-].
  all: do 3 eexists; (split; [done | split; [unfold field_spec; cbn | eauto]]); try (by repeat split).
  - apply isinstance_dict in Hd0 as [its ->]. eauto 6.
  - repeat split. destruct v0; try discriminate Hd0; reflexivity.
Qed.

(** The nested classes of the loop are, in order, the classes built from
    the nested items. *)
Lemma build_fields_nested build items fs cs :
  build_fields build items = Ok (fs, cs) ->
  Forall2 (fun kw c => build kw.1 kw.2 false = Ok c) (omap nested_item items) cs.
Proof.
  revert fs cs. induction items as [|[key value] rest IH]; intros fs cs.
  { by intros [= <- <-]. }
  intros (f & fs' & cs' & -> & _ & Hr & Hn)%build_fields_cons. rewrite omap_cons.
  destruct (nested_item (key, value)) as [[k w]|]; [destruct Hn as (c & Hc & ->) | subst cs];
    [constructor; [done |] |]; eauto.
Qed.

(** Induction on built trees: a property of a class that follows from the
    same property of the classes built for its nested items holds of every
    class that [build_class] returns. *)
Lemma build_class_rect (P : string -> json -> bool -> class_decl -> Prop) :
  (forall name items r n fs cs,
     class_name_of name = Ok n ->
     build_fields build_class items = Ok (fs, cs) ->
     Forall2 (fun kw c => build_class kw.1 kw.2 false = Ok c /\ P kw.1 kw.2 false c)
       (omap nested_item items) cs ->
     P name (JObject items) r (mk_class n fs r cs)) ->
  forall v name r c, build_class name v r = Ok c -> P name v r c.
Proof.
  intros Hstep v.
  induction v as [v Hv | items IH] using json_walk_ind.
  { intros name r c. destruct v; try discriminate Hv; cbn [build_class];
      by destruct (class_name_of name). }
  intros name r c. cbn [build_class].
  destruct (class_name_of name) as [n|] eqn:Hn; cbn [res_bind]; [| done].
  destruct (build_fields build_class items) as [[fs cs]|] eqn:Hb; cbn [res_bind]; [| done].
  intros [= <-]. apply Hstep; [done | done |].
  pose proof (nested_items_Forall _ items IH) as Hnest.
  eapply Forall2_impl; [exact (Forall_Forall2_and _ _ _ _ Hnest (build_fields_nested _ _ _ _ Hb)) |].
  intros [k w] c' [H1 H2]. split; [done | by apply H1].
Qed.

(** Every field descriptor the loop builds follows its item, whatever the
    recursive builder does. *)
Lemma build_fields_spec build items fs cs :
  build_fields build items = Ok (fs, cs) -> Forall2 field_spec items fs.
Proof.
  revert fs cs. induction items as [|[key value] rest IH]; intros fs cs; [by intros [= <- <-] |].
  intros (f & fs' & cs' & -> & Hf & Hr & _)%build_fields_cons. constructor; eauto.
Qed.

(** A field refers to a generated class exactly when its item introduces
    one, and the class is named after the key. *)
Lemma nested_item_key key value k w : nested_item (key, value) = Some (k, w) -> k = key.
Proof.
  rewrite nested_item_eq. destruct (isinstance value PyDict); [by intros [= <- _] |].
  destruct value as [| | | | | [|v0 xs] |]; try done.
  destruct (isinstance v0 PyDict); [by intros [= <- _] | done].
Qed.

Lemma field_spec_class key value f :
  field_spec (key, value) f ->
  match nested_item (key, value) with
  | Some _ => exists n, class_name_of key = Ok n /\ field_class f = Some n
  | None => field_class f = None
  end.
Proof.
  unfold field_spec, field_class. cbn [fst snd]. rewrite nested_item_eq. intros (_ & _ & Ht).
  destruct (isinstance value PyDict) eqn:Hd.
  { apply isinstance_dict in Hd as [its ->]. destruct Ht as (n & Hn & ->). eauto. }
  destruct value as [| | | | | [|v0 xs] |]; try discriminate Hd; try (rewrite Ht; reflexivity).
  destruct (isinstance v0 PyDict) eqn:Hd0.
  { apply isinstance_dict in Hd0 as [its ->]. destruct Ht as (n & Hn & ->). eauto. }
  destruct v0 as [| | | | | [|] |]; try discriminate Hd0; rewrite Ht; reflexivity.
Qed.

(** The nested classes of the loop are named, in order, after the
    classes its fields refer to. *)
Lemma build_fields_names items fs cs :
  build_fields build_class items = Ok (fs, cs) -> map cd_name cs = omap field_class fs.
Proof.
  revert fs cs. induction items as [|[key value] rest IH]; intros fs cs; [by intros [= <- <-] |].
  intros (f & fs' & cs' & -> & Hf & Hr & Hn)%build_fields_cons. rewrite omap_cons.
  pose proof (field_spec_class key value f Hf) as Hc.
  destruct (nested_item (key, value)) as [[k w]|] eqn:Hni; [| rewrite Hc, Hn; by eapply IH].
  apply nested_item_key in Hni as ->. destruct Hn as (c & Hb & ->), Hc as (n & Hk & ->).
  apply build_class_name in Hb as [Hb _]. rewrite Hk in Hb. injection Hb as ->.
  cbn [map]. f_equal. by eapply IH.
Qed.

Lemma build_class_wf_nested v name r c : build_class name v r = Ok c -> wf_nested c = true.
Proof.
  revert v name r c. apply (build_class_rect (fun _ _ _ c => wf_nested c = true)).
  intros name items r n fs cs _ Hb Hnest. cbn [wf_nested].
  rewrite (build_fields_names _ _ _ Hb), bool_decide_eq_true_2 by done. cbn [andb].
  assert (Hcs : Forall (fun c => cd_root c = false /\ wf_nested c = true) cs).
  { eapply Forall2_Forall_r; [exact Hnest |]. apply Forall_forall.
    intros kw _ c [Hc Hw]. split; [exact (proj2 (build_class_name _ _ _ _ Hc)) | done]. }
  rewrite Forall_forall in Hcs.
  apply andb_true_intro; split; apply forallb_forall; intros c Hc%list_elem_of_In;
    destruct (Hcs c Hc) as [H1 H2]; by rewrite ?H1, ?H2.
Qed.

(** C6: Nesting invariant of the generated classes (spec sections 3 and 4.3):
    a successfully built class has the requested root flag; below it, the
    nested classes are, in order, exactly the classes its fields are typed
    with (one per dict-valued or list-of-dicts field, named as the field
    type), none of them is a root, so the [fromJSON]/[toJSON] helpers
    appear on the outermost class only, and the same holds at every
    depth. *)
Theorem build_class_structure name v is_root c :
  build_class name v is_root = Ok c ->
  cd_root c = is_root /\ wf_nested c = true.
Proof.
  intros Hb. split; [by apply (build_class_name _ _ _ _ Hb) |].
  exact (build_class_wf_nested v name is_root c Hb).
Qed.

(** C7: Fields (spec section 4.3): one field per item of the dict, in the
    order of [dict.items()]; its name is the sanitized key; a dict value is
    typed by the class named after the key, a list whose first element is a
    dict by a [List] of that class, any other value by the inferrer. *)
Theorem build_class_fields name items is_root c :
  build_class name (JObject items) is_root = Ok c ->
  Forall2 field_spec items (cd_fields c).
Proof.
  cbn [build_class]. destruct (class_name_of name); cbn [res_bind]; [| done].
  destruct (build_fields build_class items) as [[fs cs]|] eqn:Hb; cbn [res_bind]; [| done].
  intros [= <-]. exact (build_fields_spec _ _ _ _ Hb).
Qed.

Lemma items_objects_nested f items :
  items_objects f items = sum_list_with (fun kw => f kw.2) (omap nested_item items).
Proof.
  induction items as [|[key value] rest IH]; [done |].
  cbn [items_objects]. rewrite omap_cons, IH, nested_item_eq.
  destruct (isinstance value PyDict); [done |].
  destruct value as [| | | | | [|v0 xs] |]; try done. by destruct (isinstance v0 PyDict).
Qed.

Lemma build_class_count_classes v name r c :
  build_class name v r = Ok c -> count_classes c = walk_objects v.
Proof.
  revert v name r c. apply (build_class_rect (fun _ v _ c => count_classes c = walk_objects v)).
  intros name items r n fs cs _ _ Hnest. cbn [count_classes walk_objects]. f_equal.
  rewrite items_objects_nested. clear - Hnest.
  induction Hnest as [|kw c l cs' [_ Hc] _ IH]; [done |]. cbn [sum_list_with]. by rewrite Hc, IH.
Qed.

(** C24: One class per object (spec section 3): a successful build declares
    exactly one class for the object itself and one for every object the
    walk reaches through dict values and the first elements of lists. *)
Theorem build_class_count name v is_root c :
  build_class name v is_root = Ok c -> count_classes c = walk_objects v.
Proof. apply build_class_count_classes. Qed.

(** ** Witnesses on a sample object *)

(** [{"id": 7, "owner": {"name": "Ann"}, "line_items": [{"x_y": true}]}]. *)
Definition sample_items : list (string * json) :=
  [("id", JInt 7); ("owner", JObject [("name", JString "Ann")]);
   ("line_items", JArray [JObject [("x_y", JBool true)]])].

Definition sample_class : class_decl :=
  match build_class "Root" (JObject sample_items) true with
  | Ok c => c
  | Raise _ => mk_class "" [] false []
  end.

Lemma sample_class_built : build_class "Root" (JObject sample_items) true = Ok sample_class.
Proof. vm_compute. reflexivity. Qed.

Lemma build_class_structure_witness :
  build_class "Root" (JObject sample_items) true = Ok sample_class /\
  cd_root sample_class = true /\ wf_nested sample_class = true.
Proof.
  split; [exact sample_class_built |].
  exact (build_class_structure _ _ _ _ sample_class_built).
Defined.

Lemma build_class_fields_witness :
  build_class "Root" (JObject sample_items) true = Ok sample_class /\
  Forall2 field_spec sample_items (cd_fields sample_class).
Proof.
  split; [exact sample_class_built |].
  exact (build_class_fields _ _ _ _ sample_class_built).
Defined.

Lemma build_class_count_witness :
  build_class "Root" (JObject sample_items) true = Ok sample_class /\
  count_classes sample_class = 3.
Proof.
  split; [exact sample_class_built |].
  rewrite (build_class_count _ _ _ _ sample_class_built). reflexivity.
Defined.
