(* ===== verification/Driver.v ===== *)
(** * Driver: [convert_json_to_apex] of [src/json2apex.py] (lines 91-97)

    The driver generates the root class from the document when it is a
    dict, from its first element when it is a non-empty list whose first
    element is a dict, and raises [ValueError] otherwise.  [select_root] is
    that choice as a partial function (spec section 4.4).  The theorem
    characterises the [ValueError] inputs; [scenario_input], the document
    of spec section 8, is the input the witnesses of the later files run
    on. *)

From S2P Require Import Prelude PyStr Json Sanitizer TypeInfer ClassGen ClassDecl.
From stdpp Require Import base list strings.
From Stdlib Require Import Ascii String ZArith.

Open Scope py_scope.

(** The message of the [ValueError] (line 97). *)
Definition INVALID_INPUT : string := "JSON must be an object or a list of objects.".

(** The default of [root_class_name] (line 91) and of the [-c] option. *)
Definition DEFAULT_ROOT : string := "Root".

(** Lines 91-97. *)
Definition convert_json_to_apex (json_data : json) (root_class_name : string) : result string :=
  if isinstance json_data PyDict then
    generate_apex_class root_class_name json_data 0 true
  else
    match json_data with
    | JArray (v0 :: _) =>
        if isinstance v0 PyDict then generate_apex_class root_class_name v0 0 true
        else Raise (ValueError INVALID_INPUT)
    | _ => Raise (ValueError INVALID_INPUT)
    end.

(** The representative root object (spec section 4.4). *)
Definition select_root (v : json) : option json :=
  match v with
  | JObject _ => Some v
  | JArray ((JObject _ as v0) :: _) => Some v0
  | _ => None
  end.

(** ** Properties *)

(** The driver generates the root class, at depth 0 and with the root
    flag, from the object [select_root] picks, and raises [ValueError]
    when there is none (spec section 4.4). *)
Lemma convert_json_to_apex_select v root_class_name :
  convert_json_to_apex v root_class_name =
  match select_root v with
  | Some o => generate_apex_class root_class_name o 0 true
  | None => Raise (ValueError INVALID_INPUT)
  end.
Proof. destruct v as [| | | | | [|[] xs] |]; reflexivity. Qed.

(** [select_root] only picks dicts. *)
Lemma select_root_dict v o : select_root v = Some o -> isinstance o PyDict = true.
Proof. destruct v as [| | | | | [|[] xs] |]; by intros [= <-]. Qed.

(** Every outcome of the driver: success exactly when there is a root
    object, the root name is non-empty and every class-introducing key
    below it is non-empty; [ValueError] exactly when there is no root
    object; [IndexError] otherwise. *)
Lemma convert_json_to_apex_outcome v root_class_name :
  match convert_json_to_apex v root_class_name with
  | Ok _ => exists o, select_root v = Some o /\ root_class_name <> "" /\ class_keys_ok o = true
  | Raise e =>
      (select_root v = None /\ e = ValueError INVALID_INPUT) \/
      (exists o, select_root v = Some o /\ e = IndexError /\
                 (root_class_name = "" \/ class_keys_ok o = false))
  end.
Proof.
  rewrite convert_json_to_apex_select.
  destruct (select_root v) as [o|] eqn:Hs; [| by left].
  pose proof (select_root_dict v o Hs) as Hd.
  rewrite gen_build_refinement.
  pose proof (build_class_outcome o root_class_name true) as H. revert H.
  destruct (build_class root_class_name o true); cbn [res_map]; [naive_solver |].
  intros [[-> ?] | (_ & _ & ?)]; [right; eauto | congruence].
Qed.

(** C3: [ValueError] is raised exactly on a document that is neither a dict
    nor a non-empty list whose first element is a dict, whatever the root
    name: the generator itself never raises it. *)
Theorem convert_json_to_apex_value_error v root_class_name :
  (exists msg, convert_json_to_apex v root_class_name = Raise (ValueError msg))
  <-> select_root v = None.
Proof.
  pose proof (convert_json_to_apex_outcome v root_class_name) as H. revert H.
  destruct (convert_json_to_apex v root_class_name) as [a|e].
  - intros (o & Ho & _). split; [by intros [? ?] | congruence].
  - intros [[-> ->] | (o & -> & -> & _)]; naive_solver.
Qed.

(** The input of the scenario of spec section 8. *)
Definition scenario_input : json :=
  JObject [("user_id", JInt 1); ("first_name", JString "Ann"); ("is_active", JBool true);
           ("address", JObject [("zip_code", JString "10001")])].


