(* ===== verification/Walk.v ===== *)
(** * Walk: folds over the objects and keys the generator visits

    [generate_apex_class] recurses into a dict value, and into the first
    element of a list value when it is a dict (lines 62-70; [nested_item]
    of [ClassDecl]).  [walk_fold] folds over the objects of that walk;
    [keys_all] (every key met satisfies a test), [walk_keys] (the number of
    keys met) and [walk_classes] (the number of objects visited, equal to
    [walk_objects]) are the folds the layout theorems of [Layout] use. *)

From S2P Require Import Prelude PyStr Json Sanitizer TypeInfer ClassGen ClassDecl.
From stdpp Require Import base list strings.
From Stdlib Require Import Ascii String.

Open Scope py_scope.

(** ** Folding over the walk *)

Section walk_fold.
Context {A : Type} (leaf : A) (node : list (string * json) -> list A -> A).

Section items_nested.
Variable f : json -> A.

Fixpoint items_nested (items : list (string * json)) : list A :=
  match items with
  | [] => []
  | (key, value) :: rest =>
      if isinstance value PyDict then f value :: items_nested rest
      else match value with
           | JArray (v0 :: _) =>
               if isinstance v0 PyDict then f v0 :: items_nested rest else items_nested rest
           | _ => items_nested rest
           end
  end.
End items_nested.

(** [node] combines an object's items with the results for its nested
    objects; any other value gives [leaf]. *)
Fixpoint walk_fold (v : json) : A :=
  match v with
  | JObject items => node items (items_nested walk_fold items)
  | _ => leaf
  end.

Lemma items_nested_omap f items :
  items_nested f items = map (fun kw => f kw.2) (omap nested_item items).
Proof.
  induction items as [|[key value] rest IH]; [done |]. cbn [items_nested].
  rewrite omap_cons, IH, nested_item_eq.
  destruct (isinstance value PyDict); [done |].
  destruct value as [| | | | | [|v0 xs] |]; try done.
  by destruct (isinstance v0 PyDict).
Qed.

Lemma walk_fold_obj items :
  walk_fold (JObject items) = node items (map (fun kw => walk_fold kw.2) (omap nested_item items)).
Proof. cbn [walk_fold]. by rewrite items_nested_omap. Qed.
End walk_fold.

(** ** The walk in visiting order *)

(** The objects the walk visits, in the order the generator visits them
    (depth first, items in key order), each with its depth and the name
    its class is derived from: the root name for the root object, the key
    for a nested one. *)
Section items_headers.
Variable f : string -> json -> list (nat * string).

Fixpoint items_headers (items : list (string * json)) : list (nat * string) :=
  match items with
  | [] => []
  | (key, value) :: rest =>
      if isinstance value PyDict then f key value ++ items_headers rest
      else match value with
           | JArray (v0 :: _) =>
               if isinstance v0 PyDict then f key v0 ++ items_headers rest else items_headers rest
           | _ => items_headers rest
           end
  end.
End items_headers.

Fixpoint walk_headers (d : nat) (name : string) (v : json) : list (nat * string) :=
  match v with
  | JObject items => (d, name) :: items_headers (walk_headers (S d)) items
  | _ => []
  end.

Lemma items_headers_omap f items :
  items_headers f items = List.concat (map (fun kw => f kw.1 kw.2) (omap nested_item items)).
Proof.
  induction items as [|[key value] rest IH]; [done |]. cbn [items_headers].
  rewrite omap_cons, IH, nested_item_eq.
  destruct (isinstance value PyDict); [done |].
  destruct value as [| | | | | [|v0 xs] |]; try done.
  by destruct (isinstance v0 PyDict).
Qed.

Lemma walk_headers_obj d name items :
  walk_headers d name (JObject items) =
  (d, name) :: List.concat (map (fun kw => walk_headers (S d) kw.1 kw.2) (omap nested_item items)).
Proof. cbn [walk_headers]. by rewrite items_headers_omap. Qed.

(** Every key of every object the walk visits satisfies [p]. *)
Definition keys_all (p : string -> bool) : json -> bool :=
  walk_fold true (fun items bs => forallb (fun kv => p kv.1) items && forallb id bs).

(** The number of keys of the objects the walk visits. *)
Definition walk_keys : json -> nat :=
  walk_fold 0 (fun items ns => List.length items + sum_list ns).

Lemma keys_all_obj p items :
  keys_all p (JObject items) = true <->
  Forall (fun kv => p kv.1 = true) items /\
  Forall (fun kw => keys_all p kw.2 = true) (omap nested_item items).
Proof.
  unfold keys_all. rewrite walk_fold_obj, andb_true_iff, !forallb_forall, !Forall_forall.
  setoid_rewrite list_elem_of_In. setoid_rewrite in_map_iff.
  split; [intros [H1 H2]; split; [done |] | intros [H1 H2]; split; [done |]];
    [intros kw Hkw; apply (H2 _ (ex_intro _ kw (conj eq_refl Hkw))) |].
  intros b (kw & <- & Hkw). by apply H2.
Qed.

(** The number of objects the walk visits, as a fold. *)
Definition walk_classes : json -> nat := walk_fold 0 (fun _ ns => S (sum_list ns)).

(** [walk_objects] of [ClassDecl] is that fold. *)
Lemma walk_objects_fold v : walk_objects v = walk_classes v.
Proof.
  induction v as [v Hv | items IH] using json_walk_ind; [by destruct v |].
  cbn [walk_objects]. unfold walk_classes. rewrite walk_fold_obj. fold walk_classes. f_equal.
  induction IH as [|[key value] rest [Hv Hv0] _ IHr]; [done |]. cbn [fst snd] in Hv, Hv0.
  cbn [items_objects]. rewrite omap_cons, IHr, nested_item_eq.
  destruct (isinstance value PyDict); [cbn; by rewrite Hv |].
  destruct value as [| | | | | [|v0 ys] |]; try done.
  destruct (isinstance v0 PyDict); [cbn; by rewrite (Hv0 v0 ys eq_refl) | done].
Qed.
