(* ===== verification/Layout.v ===== *)
(** * Layout: the text the generator prints

    The generator joins its lines with ['\n'] (line 88) and writes keys,
    names and types into them unescaped.  For keys and a root name without
    a newline, splitting the text at newlines gives back exactly the lines
    of the printed tree ([render_class]): the line structure is a round
    trip.  For keys and a root name without braces, the braces of the text
    are balanced: every class opens one brace on its header line and
    closes it on its last line, nested classes strictly inside (the output
    format invariant of spec section 3).  For keys and a root name without
    parentheses, the lines with a parenthesis are the four lines of the
    root class's helpers: they are printed once, and the lines opening a
    brace without a parenthesis, the class headers, are one per visited
    object.  The number of lines is
    [8 + 2 * objects + keys] for the root class: linear in the input. *)

From S2P Require Import Prelude PyStr Json Sanitizer TypeInfer ClassGen ClassDecl Driver Walk.
From stdpp Require Import base list strings.
From Stdlib Require Import Ascii String.

Open Scope py_scope.

(** ** Characters of the names *)

(** The text of the fixed type names. *)
Definition type_words : string :=
  "String" +:+ "Boolean" +:+ "Integer" +:+ "Decimal" +:+ "Object" +:+ "List<" +:+ ">".

(** Every key, name and type written for a class and its nested classes
    satisfies [p]. *)
Definition field_chars (p : string -> bool) (f : field_desc) : bool :=
  p (fd_key f) && p (fd_name f) && p (render_type (fd_type f)).

Fixpoint decl_chars (p : string -> bool) (c : class_decl) : bool :=
  match c with
  | mk_class n fs _ cs => p n && forallb (field_chars p) fs && forallb (decl_chars p) cs
  end.

Section names.
Variable ch : ascii.
Hypothesis Hch : inert ch = true.

Lemma py_split_parts_lack sep s :
  str_lacks ch s = true -> Forall (fun p => str_lacks ch p = true) (py_split sep s).
Proof. unfold str_lacks. intros H. rewrite <- (py_split_join sep s) in H. exact (str_forallb_concat_inv _ _ _ H). Qed.

Lemma to_camel_case_lacks s : str_lacks ch s = true -> str_lacks ch (to_camel_case s) = true.
Proof.
  intros H. unfold to_camel_case. pose proof (py_split_parts_lack underscore s H) as Hp.
  destruct (py_split underscore s) as [|p0 rest]; [done |].
  apply Forall_cons in Hp as [Hp0 Hr]. unfold str_lacks in *. rewrite str_forallb_app, Hp0.
  apply str_forallb_concat; [done |]. apply Forall_map. eapply Forall_impl; [exact Hr |].
  intros p Hp. change (str_lacks ch (py_capitalize p) = true). by rewrite py_capitalize_lacks.
Qed.

Lemma underscore_lacks : str_lacks ch "_" = true.
Proof.
  unfold str_lacks. rewrite str_forallb_String. cbn [str_forallb list_ascii_of_string forallb].
  rewrite Ascii.eqb_sym. change ("_"%char) with underscore. by rewrite inert_not_underscore.
Qed.

Lemma safe_field_name_lacks k : str_lacks ch k = true -> str_lacks ch (safe_field_name k) = true.
Proof.
  intros H. unfold safe_field_name. pose proof (to_camel_case_lacks k H) as Hc.
  destruct (_ || _); [| done]. unfold str_lacks in *. rewrite str_forallb_app, Hc, andb_true_r.
  apply underscore_lacks.
Qed.

Lemma class_name_of_lacks name n :
  class_name_of name = Ok n -> str_lacks ch name = true -> str_lacks ch n = true.
Proof.
  destruct name as [|c r]; [done |]. rewrite class_name_of_String. intros [= <-].
  unfold str_lacks. rewrite !str_forallb_String. intros [Hc Hr]%andb_prop.
  rewrite str_forallb_app. apply andb_true_intro. split.
  - change (str_lacks ch (py_upper (String c "")) = true). rewrite py_upper_lacks by done.
    unfold str_lacks. by rewrite str_forallb_String, Hc.
  - by apply to_camel_case_lacks.
Qed.
End names.

Section types.
Variable ch : ascii.
Hypothesis Hty : str_lacks ch type_words = true.

Lemma type_words_lack :
  str_lacks ch "String" = true /\ str_lacks ch "Boolean" = true /\ str_lacks ch "Integer" = true /\
  str_lacks ch "Decimal" = true /\ str_lacks ch "Object" = true /\ str_lacks ch "List<" = true /\
  str_lacks ch ">" = true.
Proof. unfold type_words in Hty. rewrite !str_lacks_app, !andb_true_iff in Hty. tauto. Qed.

Lemma list_type_lacks s : str_lacks ch s = true -> str_lacks ch ("List<" +:+ s +:+ ">") = true.
Proof.
  destruct type_words_lack as (_ & _ & _ & _ & _ & H1 & H2). intros Hs.
  by rewrite !str_lacks_app, Hs, H1, H2.
Qed.

Lemma infer_type_lacks v : str_lacks ch (render_type (infer_type v)) = true.
Proof.
  destruct type_words_lack as (? & ? & ? & ? & Hobj & _).
  induction v as [| | | | | [|v0 xs] IH |] using json_ind; cbn [infer_type render_type];
    try assumption; apply list_type_lacks; [done |].
  by apply Forall_cons in IH as [? _].
Qed.

(** A field follows its item: its key, name and type have no [ch] when
    the key has none. *)
Lemma field_spec_chars kv f :
  inert ch = true -> field_spec kv f -> str_lacks ch kv.1 = true ->
  field_chars (str_lacks ch) f = true.
Proof.
  intros Hch (Hk & Hn & Ht) Hkey. unfold field_chars. rewrite Hk, Hn, Hkey.
  rewrite safe_field_name_lacks by done. cbn [andb].
  destruct kv as [key [| | | | | [|[] xs] |]]; cbn [fst snd] in *;
    try (rewrite Ht; apply infer_type_lacks).
  - destruct Ht as (n & Hcn & ->). apply list_type_lacks. by apply (class_name_of_lacks ch Hch key).
  - destruct Ht as (n & Hcn & ->). by apply (class_name_of_lacks ch Hch key).
Qed.

(** Every key, name and type of a built tree lacks [ch] when the root
    name and every key of the walk do. *)
Lemma build_class_chars v name r c :
  inert ch = true -> build_class name v r = Ok c ->
  str_lacks ch name = true -> keys_all (str_lacks ch) v = true ->
  decl_chars (str_lacks ch) c = true.
Proof.
  intros Hch. revert v name r c.
  apply (build_class_rect (fun name v _ c => str_lacks ch name = true ->
           keys_all (str_lacks ch) v = true -> decl_chars (str_lacks ch) c = true)).
  intros name items r n fs cs Hn Hb Hnest Hname [Hkeys Hwalk]%keys_all_obj.
  cbn [decl_chars]. rewrite (class_name_of_lacks ch Hch name n Hn Hname). cbn [andb].
  apply andb_true_intro; split; apply forallb_forall; intros x Hx%list_elem_of_In.
  - pose proof (Forall_Forall2_and _ _ _ _ Hkeys (build_fields_spec _ _ _ _ Hb)) as Hs.
    assert (Hf : Forall (fun f => field_chars (str_lacks ch) f = true) fs).
    { eapply Forall2_Forall_r; [exact Hs |]. apply Forall_forall.
      intros kv _ f [Hk Hf]. by apply (field_spec_chars kv). }
    rewrite Forall_forall in Hf. by apply Hf.
  - pose proof (Forall_Forall2_and _ _ _ _
      (proj2 (Forall_and _ _) (conj (nested_item_keys (fun k => str_lacks ch k = true) _ Hkeys) Hwalk)) Hnest) as H.
    assert (Hc : Forall (fun c => decl_chars (str_lacks ch) c = true) cs).
    { eapply Forall2_Forall_r; [exact H |]. apply Forall_forall.
      intros kw _ c' [[Hk Hw] [_ HP]]. by apply HP. }
    rewrite Forall_forall in Hc. by apply Hc.
Qed.
End types.

(** ** Lines: the text splits back into the printed lines *)

(** Split a [str_lacks] goal on appended text and close the pieces from
    the hypotheses or by computation. *)
Ltac lacks_solve :=
  rewrite ?str_lacks_app;
  repeat match goal with |- _ && _ = true => apply andb_true_intro; split end;
  first [assumption | reflexivity].

Lemma py_repeat_lacks ch s n : str_lacks ch s = true -> str_lacks ch (py_repeat s n) = true.
Proof. intros Hs. induction n as [|n IH]; [done |]. cbn [py_repeat]. lacks_solve. Qed.

(** The fixed text of a field line. *)
Definition field_words : string := "    public " +:+ " " +:+ ";" +:+ " // " +:+ dq +:+ " -> ".

Lemma render_field_lacks ch indent_str f :
  str_lacks ch field_words = true ->
  str_lacks ch indent_str = true -> field_chars (str_lacks ch) f = true ->
  str_lacks ch (render_field indent_str f) = true.
Proof.
  unfold field_words, field_chars. rewrite !str_lacks_app, !andb_true_iff.
  intros (? & ? & ? & ? & ? & ?) Hi [[Hk Hn] Ht].
  unfold render_field, field_line, rename_comment.
  destruct (String.eqb _ _); lacks_solve.
Qed.

Lemma root_helpers_nl_free indent_str n :
  str_lacks nl_char indent_str = true -> str_lacks nl_char n = true ->
  Forall (fun l => str_lacks nl_char l = true) (root_helpers indent_str n).
Proof. intros Hi Hn. unfold root_helpers. repeat constructor; lacks_solve. Qed.

(** No printed line contains a newline when no name, key or type does. *)
Lemma render_class_nl_free d c :
  decl_chars (str_lacks nl_char) c = true ->
  Forall (fun l => str_lacks nl_char l = true) (render_class d c).
Proof.
  revert d. induction c as [n fs r cs IH] using class_decl_ind; intros d.
  cbn [decl_chars render_class]. intros [[Hn Hfs]%andb_prop Hcs]%andb_prop.
  assert (Hi : str_lacks nl_char (py_repeat INDENT d) = true) by (apply py_repeat_lacks; reflexivity).
  constructor; [unfold class_header; lacks_solve |].
  apply Forall_app; split.
  { apply Forall_map, Forall_forall. intros f Hf%list_elem_of_In.
    apply render_field_lacks; [reflexivity | done |]. by apply (proj1 (forallb_forall _ _) Hfs). }
  apply Forall_app; split; [destruct r; [by apply root_helpers_nl_free | constructor] |].
  apply Forall_app; split; [| constructor; [lacks_solve | constructor]].
  apply Forall_concat, Forall_map, Forall_forall. intros c Hc.
  rewrite Forall_forall in IH. apply IH; [done |].
  apply list_elem_of_In in Hc. by apply (proj1 (forallb_forall _ _) Hcs).
Qed.

(** Splitting the printed text at newlines gives back its lines. *)
Lemma render_text_lines d c :
  decl_chars (str_lacks nl_char) c = true ->
  py_split nl_char (render_text d c) = render_class d c.
Proof.
  intros H. unfold render_text, nl. apply py_join_split; [apply render_class_nonempty |].
  by apply render_class_nl_free.
Qed.

(** C16: The lines of a generated class (spec section 6): when the class name
    and every key of the walk are free of newlines, splitting the text
    [generate_apex_class] returns at ['\n'] gives back exactly the lines
    of the class tree [build_class] builds, as [render_class] prints them:
    one header, one line per field, the helpers, the nested blocks and the
    closing brace. *)
Theorem generate_apex_class_lines name v d r s :
  str_lacks nl_char name = true -> keys_all (str_lacks nl_char) v = true ->
  generate_apex_class name v d r = Ok s ->
  exists c, build_class name v r = Ok c /\ py_split nl_char s = render_class d c.
Proof.
  intros Hn Hk. rewrite gen_build_refinement.
  destruct (build_class name v r) as [c|] eqn:Hb; cbn [res_map]; [| done].
  intros [= <-]. exists c. split; [done |]. apply render_text_lines.
  by apply (build_class_chars nl_char (eq_refl : str_lacks nl_char type_words = true) v name r c).
Qed.

(** ** Size: the number of lines *)

Fixpoint class_lines (c : class_decl) : nat :=
  match c with
  | mk_class _ fs r cs =>
      2 + List.length fs + (if r then 8 else 0) + sum_list_with class_lines cs
  end.

Lemma render_class_length d c : List.length (render_class d c) = class_lines c.
Proof.
  revert d. induction c as [n fs r cs IH] using class_decl_ind; intros d.
  cbn [render_class class_lines]. rewrite length_cons, !length_app, length_map.
  assert (List.length (List.concat (map (render_class (S d)) cs)) = sum_list_with class_lines cs)
    as ->.
  { induction IH as [|c cs Hc _ IHcs]; [done |].
    cbn [map List.concat sum_list_with]. by rewrite length_app, Hc, IHcs. }
  destruct r; cbn; lia.
Qed.

(** A class built with root flag [r] has [2] lines per object the walk
    visits, one per key, and [8] helper lines when it is the root. *)
Lemma build_class_lines v name r c :
  build_class name v r = Ok c ->
  class_lines c = (if r then 8 else 0) + 2 * walk_classes v + walk_keys v.
Proof.
  revert v name r c.
  apply (build_class_rect (fun _ v r c => class_lines c = (if r then 8 else 0) + 2 * walk_classes v + walk_keys v)).
  intros name items r n fs cs _ Hb Hnest.
  unfold walk_classes, walk_keys. rewrite !walk_fold_obj. fold walk_classes walk_keys.
  cbn [class_lines]. rewrite <- (Forall2_length _ _ _ (build_fields_spec _ _ _ _ Hb)).
  assert (sum_list_with class_lines cs =
          2 * sum_list (map (fun kw => walk_classes kw.2) (omap nested_item items)) +
          sum_list (map (fun kw => walk_keys kw.2) (omap nested_item items))) as ->.
  { clear Hb. induction Hnest as [|kw c l cs' [_ Hc] _ IH]; [done |].
    cbn [sum_list_with map sum_list id]. rewrite Hc, IH. lia. }
  destruct r; lia.
Qed.

(** C20: Size of the output: for a root name and keys free of newlines, the
    text [convert_json_to_apex] returns has exactly [8 + 2 * objects + keys]
    lines, where [objects] counts the objects the generator visits from
    the root object and [keys] their keys: a header and a closing brace
    per class, a line per field, and the eight lines of the root helpers.
    The output grows linearly with the input. *)
Theorem convert_json_to_apex_line_count v root_class_name o s :
  select_root v = Some o ->
  str_lacks nl_char root_class_name = true -> keys_all (str_lacks nl_char) o = true ->
  convert_json_to_apex v root_class_name = Ok s ->
  List.length (py_split nl_char s) = 8 + 2 * walk_objects o + walk_keys o.
Proof.
  intros Hs Hn Hk. rewrite convert_json_to_apex_select, Hs, gen_build_refinement.
  destruct (build_class root_class_name o true) as [c|] eqn:Hb; cbn [res_map]; [| done].
  intros [= <-].
  rewrite render_text_lines
    by exact (build_class_chars nl_char eq_refl o root_class_name true c eq_refl Hb Hn Hk).
  by rewrite render_class_length, (build_class_lines _ _ _ _ Hb), walk_objects_fold.
Qed.

Lemma convert_json_to_apex_line_count_witness :
  List.length (py_split nl_char match convert_json_to_apex scenario_input DEFAULT_ROOT with
                                | Ok s => s | Raise _ => "" end)
  = 8 + 2 * walk_objects scenario_input + walk_keys scenario_input /\
  8 + 2 * walk_objects scenario_input + walk_keys scenario_input = 17.
Proof.
  split; [| reflexivity].
  apply (convert_json_to_apex_line_count scenario_input DEFAULT_ROOT scenario_input);
    [reflexivity | reflexivity | vm_compute; reflexivity | vm_compute; reflexivity].
Defined.

(** ** Braces *)

Definition open_brace : ascii := "{"%char.
Definition close_brace : ascii := "}"%char.

(** The brace depth after reading [s] from depth [n]; [None] when a
    closing brace has no opening brace before it. *)
Fixpoint brace_depth (n : nat) (s : string) : option nat :=
  match s with
  | EmptyString => Some n
  | String c r =>
      if (c =? open_brace)%char then brace_depth (S n) r
      else if (c =? close_brace)%char then
        match n with O => None | S m => brace_depth m r end
      else brace_depth n r
  end.

(** The depth after a list of lines read one after the other. *)
Fixpoint lines_depth (n : nat) (ls : list string) : option nat :=
  match ls with
  | [] => Some n
  | l :: ls' =>
      match brace_depth n l with Some m => lines_depth m ls' | None => None end
  end.

Definition brace_free (s : string) : bool := str_lacks open_brace s && str_lacks close_brace s.

Lemma brace_depth_app n s1 s2 :
  brace_depth n (s1 +:+ s2) =
  match brace_depth n s1 with Some m => brace_depth m s2 | None => None end.
Proof.
  revert n. induction s1 as [|c s1 IH]; intros n; [done |].
  rewrite str_app_String. cbn [brace_depth].
  destruct (c =? open_brace)%char; [done |]. destruct (c =? close_brace)%char; [| done].
  by destruct n.
Qed.

Lemma brace_depth_free n s : brace_free s = true -> brace_depth n s = Some n.
Proof.
  unfold brace_free, str_lacks. induction s as [|c s IH]; [done |].
  rewrite !str_forallb_String. intros H. cbn [brace_depth].
  rewrite andb_true_iff, !andb_true_iff, !negb_true_iff in H. destruct H as [[H1 H2] [H3 H4]].
  rewrite H1, H3. apply IH. by rewrite H2, H4.
Qed.

Lemma lines_depth_app n xs ys :
  lines_depth n (xs ++ ys) =
  match lines_depth n xs with Some m => lines_depth m ys | None => None end.
Proof.
  revert n. induction xs as [|x xs IH]; intros n; [done |]. cbn [app lines_depth].
  destruct (brace_depth n x); cbn; [apply IH | done].
Qed.

Lemma brace_depth_join n ls : brace_depth n (py_join nl ls) = lines_depth n ls.
Proof.
  revert n. induction ls as [|l ls IH]; intros n; [done |]. destruct ls as [|l' ls].
  { cbn [lines_depth]. change (py_join nl [l]) with l. by destruct (brace_depth n l). }
  rewrite py_join_cons by done. rewrite !brace_depth_app. cbn [lines_depth].
  destruct (brace_depth n l); [cbn | done]. apply IH.
Qed.

Lemma lines_depth_concat lss n :
  Forall (fun ls => forall k, lines_depth k ls = Some k) lss -> lines_depth n (List.concat lss) = Some n.
Proof.
  induction 1 as [|ls lss Hls _ IH]; [done |]. cbn [List.concat]. by rewrite lines_depth_app, Hls.
Qed.

(** Rewrite the brace depth of the pieces of a line: computed for the
    fixed text, given by a hypothesis for a brace-free variable part. *)
Ltac depth_solve :=
  repeat first
    [ rewrite brace_depth_app
    | match goal with
      | H : forall k, brace_depth k ?s = Some k |- context [brace_depth ?n ?s] => rewrite (H n)
      end
    | progress cbn [brace_depth lines_depth open_brace close_brace Ascii.eqb Bool.eqb] ];
  try reflexivity.

Section braces.
Variables (indent_str name : string).
Hypothesis Hi : forall k, brace_depth k indent_str = Some k.
Hypothesis Hn : forall k, brace_depth k name = Some k.

Lemma class_header_depth n : brace_depth n (class_header indent_str name) = Some (S n).
Proof. unfold class_header. depth_solve. Qed.

Lemma class_close_depth n : brace_depth (S n) (indent_str +:+ "}") = Some n.
Proof. depth_solve. Qed.

Lemma root_helpers_depth n : lines_depth n (root_helpers indent_str name) = Some n.
Proof. unfold root_helpers. cbn [lines_depth]. depth_solve. Qed.
End braces.

Lemma brace_free_depth s :
  str_lacks open_brace s = true -> str_lacks close_brace s = true ->
  forall k, brace_depth k s = Some k.
Proof. intros H1 H2 k. apply brace_depth_free. unfold brace_free. by rewrite H1, H2. Qed.

Lemma lines_depth_free ls n :
  Forall (fun l => forall k, brace_depth k l = Some k) ls -> lines_depth n ls = Some n.
Proof. induction 1 as [|l ls Hl _ IH]; [done |]. cbn [lines_depth]. by rewrite Hl. Qed.

(** A printed class leaves the brace depth where it found it, never going
    below it: its header opens one brace, its last line closes it, and its
    fields, helpers and nested classes are balanced in between. *)
Lemma render_class_depth d c :
  decl_chars (str_lacks open_brace) c = true -> decl_chars (str_lacks close_brace) c = true ->
  forall n, lines_depth n (render_class d c) = Some n.
Proof.
  revert d. induction c as [nm fs r cs IH] using class_decl_ind; intros d.
  cbn [decl_chars render_class]. rewrite !andb_true_iff, !forallb_forall.
  intros [[Ho Hfo] Hco] [[Hc Hfc] Hcc] n.
  assert (Hi : forall k, brace_depth k (py_repeat INDENT d) = Some k)
    by (apply brace_free_depth; apply py_repeat_lacks; reflexivity).
  pose proof (brace_free_depth nm Ho Hc) as Hn.
  cbn [lines_depth]. rewrite class_header_depth by done.
  rewrite lines_depth_app, lines_depth_free.
  2:{ apply Forall_map, Forall_forall. intros f Hf%list_elem_of_In.
      apply brace_free_depth;
        (apply render_field_lacks; [reflexivity | apply py_repeat_lacks; reflexivity | auto]). }
  rewrite lines_depth_app.
  assert (Hh : lines_depth (S n) (if r then root_helpers (py_repeat INDENT d) nm else []) = Some (S n))
    by (destruct r; [by apply root_helpers_depth | done]).
  rewrite Hh.
  rewrite lines_depth_app, lines_depth_concat.
  2:{ apply Forall_map, Forall_forall. intros c Hc'%list_elem_of_In.
      rewrite Forall_forall in IH. apply IH; [by apply list_elem_of_In | auto | auto]. }
  cbn [lines_depth]. by rewrite class_close_depth.
Qed.

(** C17: Brace balance of the output (the output format invariant of spec
    section 3): when the root name and the keys of the walk contain no
    brace, the braces of the text [convert_json_to_apex] returns are
    balanced: reading it from the start, no closing brace lacks an
    opening one, and every opened brace is closed at the end. *)
Theorem convert_json_to_apex_braces v root_class_name s :
  str_lacks open_brace root_class_name = true -> str_lacks close_brace root_class_name = true ->
  (forall o, select_root v = Some o ->
     keys_all (str_lacks open_brace) o = true /\ keys_all (str_lacks close_brace) o = true) ->
  convert_json_to_apex v root_class_name = Ok s ->
  brace_depth 0 s = Some 0.
Proof.
  intros Ho Hc Hk. rewrite convert_json_to_apex_select.
  destruct (select_root v) as [o|]; [| done]. destruct (Hk o eq_refl) as [Hko Hkc].
  rewrite gen_build_refinement.
  destruct (build_class root_class_name o true) as [c|] eqn:Hb; cbn [res_map]; [| done].
  intros [= <-]. unfold render_text. rewrite brace_depth_join.
  apply render_class_depth; [exact (build_class_chars open_brace eq_refl o _ _ c eq_refl Hb Ho Hko) |].
  exact (build_class_chars close_brace eq_refl o _ _ c eq_refl Hb Hc Hkc).
Qed.

(** ** The root helpers are printed once *)

Definition open_paren : ascii := "("%char.

(** A line with a parenthesis: a method declaration or call. *)
Definition has_paren (l : string) : bool := negb (str_lacks open_paren l).

Lemma has_paren_app s1 s2 : has_paren (s1 +:+ s2) = has_paren s1 || has_paren s2.
Proof. unfold has_paren. by rewrite str_lacks_app, negb_andb. Qed.

Lemma filter_has_paren_nil ls :
  Forall (fun l => str_lacks open_paren l = true) ls -> List.filter has_paren ls = [].
Proof. induction 1 as [|l ls Hl _ IH]; [done |]. cbn [List.filter]. by rewrite IH; unfold has_paren; rewrite Hl. Qed.

(** A class that is not a root, with no root below it, prints no
    parenthesis when its names, keys and types have none. *)
Lemma render_class_paren_free d c :
  decl_chars (str_lacks open_paren) c = true -> cd_root c = false -> wf_nested c = true ->
  Forall (fun l => str_lacks open_paren l = true) (render_class d c).
Proof.
  revert d. induction c as [n fs r cs IH] using class_decl_ind; intros d.
  cbn [decl_chars render_class cd_root wf_nested]. rewrite !andb_true_iff, !forallb_forall.
  intros [[Hn Hfs] Hcs] -> [[_ Hr] Hw].
  assert (Hi : str_lacks open_paren (py_repeat INDENT d) = true) by (apply py_repeat_lacks; reflexivity).
  constructor; [unfold class_header; lacks_solve |].
  apply Forall_app; split.
  { apply Forall_map, Forall_forall. intros f Hf%list_elem_of_In.
    apply render_field_lacks; [reflexivity | done | by apply Hfs]. }
  apply Forall_app; split; [constructor |].
  apply Forall_app; split; [| constructor; [lacks_solve | constructor]].
  apply Forall_concat, Forall_map, Forall_forall. intros c Hc%list_elem_of_In.
  rewrite Forall_forall in IH. apply IH; [by apply list_elem_of_In | auto | | auto].
  by apply negb_true_iff, Hr.
Qed.

(** The lines of the helpers with a parenthesis: the two method headers
    and the two calls in their bodies. *)
Lemma root_helpers_paren indent_str n :
  str_lacks open_paren indent_str = true -> str_lacks open_paren n = true ->
  List.filter has_paren (root_helpers indent_str n) =
  [ indent_str +:+ "    public static " +:+ n +:+ " fromJSON(String json) {";
    indent_str +:+ "        return (" +:+ n +:+ ") JSON.deserialize(json, " +:+ n +:+ ".class);";
    indent_str +:+ "    public String toJSON() {";
    indent_str +:+ "        return JSON.serialize(this);" ].
Proof.
  intros Hi Hn. unfold root_helpers. cbn [List.filter]. rewrite !has_paren_app.
  assert (has_paren indent_str = false) as -> by (unfold has_paren; by rewrite Hi).
  assert (has_paren n = false) as -> by (unfold has_paren; by rewrite Hn).
  reflexivity.
Qed.

(** A root class whose nested classes are no roots prints, of all its
    lines with a parenthesis, only those of its own helpers. *)
Lemma render_class_paren d c :
  decl_chars (str_lacks open_paren) c = true -> cd_root c = true -> wf_nested c = true ->
  List.filter has_paren (render_class d c) =
  List.filter has_paren (root_helpers (py_repeat INDENT d) (cd_name c)).
Proof.
  destruct c as [n fs r cs]. cbn [decl_chars render_class cd_root cd_name wf_nested].
  rewrite !andb_true_iff, !forallb_forall. intros [[Hn Hfs] Hcs] -> [[_ Hr] Hw].
  assert (Hi : str_lacks open_paren (py_repeat INDENT d) = true) by (apply py_repeat_lacks; reflexivity).
  assert (Hh : has_paren (class_header (py_repeat INDENT d) n) = false)
    by (unfold has_paren, class_header; apply negb_false_iff; lacks_solve).
  cbn [List.filter]. rewrite Hh, !List.filter_app.
  rewrite (filter_has_paren_nil (map _ fs)), (filter_has_paren_nil (List.concat _)),
    (filter_has_paren_nil [_]), app_nil_r; [done | constructor; [lacks_solve | constructor] | |].
  - apply Forall_concat, Forall_map, Forall_forall. intros c Hc%list_elem_of_In.
    apply render_class_paren_free; [by apply Hcs | by apply negb_true_iff, Hr | by apply Hw].
  - apply Forall_map, Forall_forall. intros f Hf%list_elem_of_In.
    apply render_field_lacks; [reflexivity | done | by apply Hfs].
Qed.

(** C18: The helpers are printed once, for the root class (the nesting
    invariant on the text): when the root name and the keys of the walk
    have no newline and no parenthesis, the lines of the text
    [convert_json_to_apex] returns that contain a parenthesis are exactly
    the header of [fromJSON] for the root class, its [JSON.deserialize]
    call, the header of [toJSON] and its [JSON.serialize] call, at the
    indentation of the root class's members, in this order: no nested
    class carries the helpers. *)
Theorem convert_json_to_apex_helpers_once v root_class_name o s :
  select_root v = Some o ->
  str_lacks nl_char root_class_name = true -> str_lacks open_paren root_class_name = true ->
  keys_all (str_lacks nl_char) o = true -> keys_all (str_lacks open_paren) o = true ->
  convert_json_to_apex v root_class_name = Ok s ->
  exists n, class_name_of root_class_name = Ok n /\
  List.filter has_paren (py_split nl_char s) =
  [ "    public static " +:+ n +:+ " fromJSON(String json) {";
    "        return (" +:+ n +:+ ") JSON.deserialize(json, " +:+ n +:+ ".class);";
    "    public String toJSON() {";
    "        return JSON.serialize(this);" ].
Proof.
  intros Hs Hn Hp Hkn Hkp. rewrite convert_json_to_apex_select, Hs, gen_build_refinement.
  destruct (build_class root_class_name o true) as [c|] eqn:Hb; cbn [res_map]; [| done].
  intros [= <-]. destruct (build_class_name _ _ _ _ Hb) as [Hcn Hr].
  pose proof (build_class_chars open_paren eq_refl o _ _ c eq_refl Hb Hp Hkp) as Hc.
  exists (cd_name c). split; [done |].
  rewrite render_text_lines by exact (build_class_chars nl_char eq_refl o _ _ c eq_refl Hb Hn Hkn).
  rewrite render_class_paren by eauto using build_class_wf_nested.
  apply root_helpers_paren; [reflexivity |]. by apply (class_name_of_lacks open_paren eq_refl root_class_name).
Qed.

(** ** One class header per visited object *)

(** A line that opens a brace and has no parenthesis: a class header. *)
Definition is_header_line (l : string) : bool :=
  negb (str_lacks open_brace l) && str_lacks open_paren l.

Lemma filter_header_nil ls :
  Forall (fun l => str_lacks open_brace l = true) ls -> List.filter is_header_line ls = [].
Proof.
  induction 1 as [|l ls Hl _ IH]; [done |]. cbn [List.filter]. unfold is_header_line at 1.
  by rewrite Hl, IH.
Qed.

(** The helpers open their braces on lines with a parenthesis. *)
Lemma root_helpers_headers indent_str n :
  str_lacks open_brace indent_str = true -> str_lacks open_paren indent_str = true ->
  str_lacks open_paren n = true ->
  List.filter is_header_line (root_helpers indent_str n) = [].
Proof.
  intros Hb Hp Hn. unfold root_helpers, is_header_line. cbn [List.filter].
  rewrite !str_lacks_app, Hb, Hp, Hn. by destruct (str_lacks open_brace n).
Qed.

(** The classes of a tree in printing order (the preorder: a class, then
    the classes nested in it, in order), each with its depth. *)
Fixpoint class_preorder (d : nat) (c : class_decl) : list (nat * string) :=
  match c with
  | mk_class n _ _ cs => (d, n) :: List.concat (map (class_preorder (S d)) cs)
  end.

(** The header line of the class named [dn.2] at depth [dn.1]. *)
Definition header_line (dn : nat * string) : string := class_header (py_repeat INDENT dn.1) dn.2.

Lemma class_preorder_length d c : List.length (class_preorder d c) = count_classes c.
Proof.
  revert d. induction c as [n fs r cs IH] using class_decl_ind; intros d.
  cbn [class_preorder count_classes List.length]. f_equal.
  induction IH as [|c cs Hc _ IHcs]; [done |]. cbn [map List.concat sum_list_with].
  by rewrite length_app, Hc, IHcs.
Qed.

(** The header lines of a printed class are those of its classes, in
    preorder. *)
Lemma render_class_header_lines d c :
  decl_chars (str_lacks open_brace) c = true -> decl_chars (str_lacks open_paren) c = true ->
  List.filter is_header_line (render_class d c) = map header_line (class_preorder d c).
Proof.
  revert d. induction c as [n fs r cs IH] using class_decl_ind; intros d.
  cbn [decl_chars render_class class_preorder]. rewrite !andb_true_iff, !forallb_forall.
  intros [[Hbn Hbf] Hbc] [[Hpn Hpf] Hpc].
  assert (Hib : str_lacks open_brace (py_repeat INDENT d) = true) by (apply py_repeat_lacks; reflexivity).
  assert (Hip : str_lacks open_paren (py_repeat INDENT d) = true) by (apply py_repeat_lacks; reflexivity).
  assert (Hh : is_header_line (class_header (py_repeat INDENT d) n) = true).
  { unfold is_header_line, class_header. rewrite !str_lacks_app, Hbn, Hpn, Hib, Hip. reflexivity. }
  cbn [List.filter map]. rewrite Hh, !List.filter_app.
  rewrite (filter_header_nil (map _ fs)), (filter_header_nil [_]).
  2:{ constructor; [lacks_solve | constructor]. }
  2:{ apply Forall_map, Forall_forall. intros f Hf%list_elem_of_In.
      apply render_field_lacks; [reflexivity | lacks_solve | by apply Hbf]. }
  assert (Hr : List.filter is_header_line (if r then root_helpers (py_repeat INDENT d) n else []) = [])
    by (destruct r; [by apply root_helpers_headers | done]).
  rewrite Hr, app_nil_r. cbn [app]. f_equal.
  clear - IH Hbc Hpc. induction IH as [|c cs Hc _ IHcs]; [done |].
  cbn [map List.concat]. rewrite List.filter_app, map_app, Hc, IHcs;
    [done | intros; by apply Hbc; right | intros; by apply Hpc; right
    | by apply Hbc; left | by apply Hpc; left].
Qed.

(** A printed class has one header line per class of its tree. *)
Lemma render_class_headers d c :
  decl_chars (str_lacks open_brace) c = true -> decl_chars (str_lacks open_paren) c = true ->
  List.length (List.filter is_header_line (render_class d c)) = count_classes c.
Proof. intros Hb Hp. by rewrite render_class_header_lines, length_map, class_preorder_length. Qed.

(** One class header per object (spec sections 3 and 4.3, on the text):
    when the root name and the keys of the walk have no newline, no
    opening brace and no parenthesis, the lines of the text
    [convert_json_to_apex] returns that open a brace without a
    parenthesis, the class headers, number exactly the objects the
    generator visits from the root object. *)
Theorem convert_json_to_apex_headers v root_class_name o s :
  select_root v = Some o ->
  forallb (fun ch => str_lacks ch root_class_name) [nl_char; open_brace; open_paren] = true ->
  forallb (fun ch => keys_all (str_lacks ch) o) [nl_char; open_brace; open_paren] = true ->
  convert_json_to_apex v root_class_name = Ok s ->
  List.length (List.filter is_header_line (py_split nl_char s)) = walk_objects o.
Proof.
  cbn [forallb]. rewrite !andb_true_r, !andb_true_iff.
  intros Hs [Hn [Hb Hp]] [Hkn [Hkb Hkp]]. rewrite convert_json_to_apex_select, Hs, gen_build_refinement.
  destruct (build_class root_class_name o true) as [c|] eqn:Hb'; cbn [res_map]; [| done].
  intros [= <-].
  rewrite render_text_lines by exact (build_class_chars nl_char eq_refl o _ _ c eq_refl Hb' Hn Hkn).
  rewrite render_class_headers; [exact (build_class_count_classes _ _ _ _ Hb') | |].
  - exact (build_class_chars open_brace eq_refl o _ _ c eq_refl Hb' Hb Hkb).
  - exact (build_class_chars open_paren eq_refl o _ _ c eq_refl Hb' Hp Hkp).
Qed.

(** The name of the class derived from a key or root name ([""] where
    [class_name_of] raises, which a successful run never meets). *)
Definition class_name_total (key : string) : string :=
  match class_name_of key with Ok n => n | Raise _ => "" end.

(** The preorder of a built tree is the walk in visiting order, each key
    turned into its class name. *)
Lemma build_class_preorder name v r c :
  build_class name v r = Ok c ->
  forall d, class_preorder d c = map (fun dk => (dk.1, class_name_total dk.2)) (walk_headers d name v).
Proof.
  revert v name r c.
  apply (build_class_rect (fun name v _ c => forall d,
    class_preorder d c = map (fun dk => (dk.1, class_name_total dk.2)) (walk_headers d name v))).
  intros name items r n fs cs Hn _ Hnest d. rewrite walk_headers_obj.
  cbn [class_preorder map fst snd]. unfold class_name_total at 1. rewrite Hn. f_equal.
  induction Hnest as [|kw c l cs' [_ Hc] _ IH]; [done |].
  cbn [map List.concat]. by rewrite map_app, Hc, IH.
Qed.

(** C19: The class headers in order (spec sections 3 and 6, on the text):
    when the root name and the keys of the walk have no newline, no
    opening brace and no parenthesis, the header lines of the text
    [convert_json_to_apex] returns are, in order, one per object the
    generator visits, depth first with the items in key order: the root
    class first at depth 0, each nested class after its parent's header
    and before the next class of the parent's level, at its depth's
    indentation, named after its key. *)
Theorem convert_json_to_apex_header_order v root_class_name o s :
  select_root v = Some o ->
  forallb (fun ch => str_lacks ch root_class_name) [nl_char; open_brace; open_paren] = true ->
  forallb (fun ch => keys_all (str_lacks ch) o) [nl_char; open_brace; open_paren] = true ->
  convert_json_to_apex v root_class_name = Ok s ->
  List.filter is_header_line (py_split nl_char s) =
  map (fun dk => class_header (py_repeat INDENT dk.1) (class_name_total dk.2))
      (walk_headers 0 root_class_name o).
Proof.
  cbn [forallb]. rewrite !andb_true_r, !andb_true_iff.
  intros Hs [Hn [Hb Hp]] [Hkn [Hkb Hkp]]. rewrite convert_json_to_apex_select, Hs, gen_build_refinement.
  destruct (build_class root_class_name o true) as [c|] eqn:Hb'; cbn [res_map]; [| done].
  intros [= <-].
  rewrite render_text_lines by exact (build_class_chars nl_char eq_refl o _ _ c eq_refl Hb' Hn Hkn).
  rewrite render_class_header_lines, (build_class_preorder _ _ _ _ Hb' 0), map_map; [done | |].
  - exact (build_class_chars open_brace eq_refl o _ _ c eq_refl Hb' Hb Hkb).
  - exact (build_class_chars open_paren eq_refl o _ _ c eq_refl Hb' Hp Hkp).
Qed.

(** ** Witnesses on the scenario of spec section 8 *)

Definition scenario_output : string :=
  match convert_json_to_apex scenario_input DEFAULT_ROOT with Ok s => s | Raise _ => "" end.

Lemma generate_apex_class_lines_witness :
  exists c, build_class DEFAULT_ROOT scenario_input true = Ok c /\
            py_split nl_char scenario_output = render_class 0 c.
Proof.
  apply (generate_apex_class_lines DEFAULT_ROOT scenario_input 0 true scenario_output);
    [reflexivity | vm_compute; reflexivity | vm_compute; reflexivity].
Defined.

Lemma convert_json_to_apex_braces_witness : brace_depth 0 scenario_output = Some 0.
Proof.
  apply (convert_json_to_apex_braces scenario_input DEFAULT_ROOT scenario_output);
    [reflexivity | reflexivity | | vm_compute; reflexivity].
  intros o [= <-]. split; vm_compute; reflexivity.
Defined.

Lemma convert_json_to_apex_header_order_witness :
  List.filter is_header_line (py_split nl_char scenario_output) =
  map (fun dk => class_header (py_repeat INDENT dk.1) (class_name_total dk.2))
      (walk_headers 0 DEFAULT_ROOT scenario_input) /\
  walk_headers 0 DEFAULT_ROOT scenario_input = [(0, "Root"); (1, "address")].
Proof.
  split; [| reflexivity].
  apply (convert_json_to_apex_header_order scenario_input DEFAULT_ROOT scenario_input scenario_output);
    [reflexivity | reflexivity | vm_compute; reflexivity | vm_compute; reflexivity].
Defined.

Lemma convert_json_to_apex_headers_witness :
  List.length (List.filter is_header_line (py_split nl_char scenario_output)) =
  walk_objects scenario_input /\ walk_objects scenario_input = 2.
Proof.
  split; [| reflexivity].
  apply (convert_json_to_apex_headers scenario_input DEFAULT_ROOT scenario_input scenario_output);
    [reflexivity | reflexivity | vm_compute; reflexivity | vm_compute; reflexivity].
Defined.

Lemma convert_json_to_apex_helpers_once_witness :
  exists n, class_name_of DEFAULT_ROOT = Ok n /\
  List.filter has_paren (py_split nl_char scenario_output) =
  [ "    public static " +:+ n +:+ " fromJSON(String json) {";
    "        return (" +:+ n +:+ ") JSON.deserialize(json, " +:+ n +:+ ".class);";
    "    public String toJSON() {";
    "        return JSON.serialize(this);" ].
Proof.
  apply (convert_json_to_apex_helpers_once scenario_input DEFAULT_ROOT scenario_input scenario_output);
    [reflexivity | reflexivity | reflexivity | vm_compute; reflexivity | vm_compute; reflexivity
    | vm_compute; reflexivity].
Defined.


