(* ===== verification/Recursion.v ===== *)
(** * Recursion: the call depth of the generator

    [generate_apex_class] calls itself once for every nested object (lines
    65 and 70), so the depth of the Python call stack it needs is the
    nesting depth of objects along its walk.  CPython bounds that stack
    (1000 frames by default) and raises [RecursionError] beyond it.
    [generate_apex_class_fuel] is the generator under a stack of [fuel]
    frames: the same code, raising [RecursionError] on a call when no
    frame is left.  The theorems show that [call_depth v] frames are
    enough for the generator to return exactly its result (so the
    recursion terminates within that depth), and that with fewer frames a
    valid input raises [RecursionError]: the depth is exact. *)

From S2P Require Import Prelude PyStr Json Sanitizer TypeInfer ClassGen ClassDecl Walk.
From stdpp Require Import base list strings.
From Stdlib Require Import Ascii String.

Open Scope py_scope.

(** Lines 50-88 under a call stack of [fuel] frames. *)
Fixpoint generate_apex_class_fuel (fuel : nat) (name : string) (json_data : json)
    (indent : nat) (is_root : bool) : result string :=
  match fuel with
  | O => Raise RecursionError
  | S fuel' =>
      let indent_str := py_repeat INDENT indent in
      let* class_name := class_name_of name in
      match json_data with
      | JObject items =>
          let* (fields, inner_classes) :=
            generate_fields (generate_apex_class_fuel fuel') indent indent_str items
              [class_header indent_str class_name] [] in
          let fields := if is_root then fields ++ root_helpers indent_str class_name else fields in
          Ok (py_join nl (fields ++ inner_classes ++ [indent_str +:+ "}"]))
      | _ => Raise AttributeError
      end
  end.

(** The frames a call on [v] needs: one for itself and, for a dict, those
    of its deepest nested object. *)
Definition call_depth : json -> nat := walk_fold 1 (fun _ ns => S (max_list ns)).

Lemma call_depth_obj items :
  call_depth (JObject items) = S (max_list (map (fun kw => call_depth kw.2) (omap nested_item items))).
Proof. unfold call_depth. by rewrite walk_fold_obj. Qed.

Lemma call_depth_pos v : 1 <= call_depth v.
Proof. destruct v; [done.. | rewrite call_depth_obj; lia]. Qed.

(** The loop only calls [gen] on nested items: two recursive calls that
    agree there give the same loop. *)
Lemma generate_fields_ext gen1 gen2 indent indent_str items fields inner_classes :
  Forall (fun kw => forall name i r, gen1 name kw.2 i r = gen2 name kw.2 i r) (omap nested_item items) ->
  generate_fields gen1 indent indent_str items fields inner_classes
  = generate_fields gen2 indent indent_str items fields inner_classes.
Proof.
  revert fields inner_classes.
  induction items as [|[key value] rest IH]; intros fields inner_classes; [done |].
  rewrite omap_cons, nested_item_eq. cbn [generate_fields].
  destruct (isinstance value PyDict).
  { intros [Hv Hr]%Forall_cons. cbn [fst snd] in Hv.
    destruct (class_name_of key); cbn [res_bind]; [| done]. rewrite Hv.
    destruct (gen2 key value (S indent) false); cbn [res_bind]; [by apply IH | done]. }
  destruct value as [| | | | | [|v0 xs] |]; try by apply IH.
  destruct (isinstance v0 PyDict); [| by apply IH].
  intros [Hv Hr]%Forall_cons. cbn [fst snd] in Hv.
  destruct (class_name_of key); cbn [res_bind]; [| done]. rewrite Hv.
  destruct (gen2 key v0 (S indent) false); cbn [res_bind]; [by apply IH | done].
Qed.

(** C21: Termination within the call depth: on every JSON value, a call stack
    of [call_depth v] frames (or more) is enough for the generator to
    return exactly what [generate_apex_class] returns, result or
    exception: the recursion ends after at most [call_depth v] nested
    calls, and [RecursionError] is never raised then. *)
Theorem generate_apex_class_fuel_enough v :
  forall fuel name indent is_root, call_depth v <= fuel ->
    generate_apex_class_fuel fuel name v indent is_root = generate_apex_class name v indent is_root.
Proof.
  induction v as [v Hv | items IH] using json_walk_ind; intros fuel name indent is_root Hf.
  { destruct fuel as [|fuel]; [pose proof (call_depth_pos v); lia |].
    destruct v; try discriminate Hv; cbn; by destruct (class_name_of name). }
  rewrite call_depth_obj in Hf. destruct fuel as [|fuel]; [lia |].
  cbn [generate_apex_class_fuel generate_apex_class].
  destruct (class_name_of name); cbn [res_bind]; [| done].
  rewrite (generate_fields_ext (generate_apex_class_fuel fuel) generate_apex_class); [done |].
  pose proof (nested_items_Forall _ _ IH) as Hn. rewrite Forall_forall in Hn |- *.
  intros kw Hkw name' i r. apply Hn; [done |].
  transitivity (max_list (map (fun kw => call_depth kw.2) (omap nested_item items))); [| lia].
  apply max_list_elem_of_le, list_elem_of_In, (in_map (fun kw => call_depth kw.2)), list_elem_of_In, Hkw.
Qed.

(** ** The depth is exact *)

(** Where an exception of the loop comes from: the class name of a nested
    item, or the recursive call on it. *)
Lemma generate_fields_Raise gen indent indent_str items fields inner_classes e :
  generate_fields gen indent indent_str items fields inner_classes = Raise e ->
  exists kw, kw ∈ omap nested_item items /\
    (class_name_of kw.1 = Raise e \/ exists i r, gen kw.1 kw.2 i r = Raise e).
Proof.
  revert fields inner_classes.
  induction items as [|[key value] rest IH]; intros fields inner_classes; [done |].
  rewrite omap_cons, nested_item_eq. cbn [generate_fields].
  assert (Hnext : forall kw, (exists kw', kw' ∈ omap nested_item rest /\
            (class_name_of kw'.1 = Raise e \/ exists i r, gen kw'.1 kw'.2 i r = Raise e)) ->
            exists kw', kw' ∈ kw :: omap nested_item rest /\
            (class_name_of kw'.1 = Raise e \/ exists i r, gen kw'.1 kw'.2 i r = Raise e))
    by (intros kw (kw' & Hin & H); exists kw'; split; [by right | done]).
  destruct (isinstance value PyDict).
  { destruct (class_name_of key) eqn:Hk; cbn [res_bind]; [| intros [= ->]; exists (key, value); split; [left | by left]].
    destruct (gen key value (S indent) false) eqn:Hg; cbn [res_bind];
      [intros H; apply Hnext; eapply IH, H | intros [= ->]; exists (key, value); split; [left | right; eauto]]. }
  destruct value as [| | | | | [|v0 xs] |]; try by apply IH.
  destruct (isinstance v0 PyDict); [| by apply IH].
  destruct (class_name_of key) eqn:Hk; cbn [res_bind]; [| intros [= ->]; exists (key, v0); split; [left | by left]].
  destruct (gen key v0 (S indent) false) eqn:Hg; cbn [res_bind];
    [intros H; apply Hnext; eapply IH, H | intros [= ->]; exists (key, v0); split; [left | right; eauto]].
Qed.

(** A call that either succeeds or runs out of stack. *)
Definition ok_or_recursion {A} (m : result A) : Prop :=
  match m with Ok _ => True | Raise e => e = RecursionError end.

Lemma class_name_of_nonempty name : name <> "" -> exists n, class_name_of name = Ok n.
Proof. destruct name; [done | eauto]. Qed.

(** On a valid dict, the only exception under a bounded stack is
    [RecursionError]. *)
Lemma generate_apex_class_fuel_valid v :
  forall fuel name indent is_root,
    name <> "" -> isinstance v PyDict = true -> class_keys_ok v = true ->
    ok_or_recursion (generate_apex_class_fuel fuel name v indent is_root).
Proof.
  induction v as [v Hv | items IH] using json_walk_ind;
    intros fuel name indent is_root Hn Hd Hk.
  { by destruct v. }
  destruct fuel as [|fuel]; [done |]. cbn [generate_apex_class_fuel].
  destruct (class_name_of_nonempty name Hn) as [cn ->]. cbn [res_bind].
  destruct (generate_fields _ _ _ _ _ _) as [[fields inner]|e] eqn:Hg; [done |].
  apply generate_fields_Raise in Hg as (kw & Hin & [He | (i & r & He)]).
  all: pose proof (items_keys_ok_nested items Hk) as Hok; rewrite Forall_forall in Hok;
       destruct (Hok kw Hin) as [Hkn Hkv].
  - destruct (class_name_of_nonempty _ Hkn) as [? Hc]. congruence.
  - pose proof (nested_items_Forall _ _ IH) as Hw. rewrite Forall_forall in Hw.
    pose proof (nested_item_dict items) as Hdict. rewrite Forall_forall in Hdict.
    pose proof (Hw kw Hin fuel kw.1 i r Hkn (Hdict kw Hin) Hkv) as H. by rewrite He in H.
Qed.

(** The loop raises [RecursionError] when every nested item has a class
    name and a call that succeeds or runs out of stack, and one of those
    calls runs out of stack. *)
Lemma generate_fields_recursion gen indent indent_str items fields inner_classes :
  Forall (fun kw => kw.1 <> "" /\ ok_or_recursion (gen kw.1 kw.2 (S indent) false))
    (omap nested_item items) ->
  Exists (fun kw => gen kw.1 kw.2 (S indent) false = Raise RecursionError) (omap nested_item items) ->
  generate_fields gen indent indent_str items fields inner_classes = Raise RecursionError.
Proof.
  revert fields inner_classes.
  induction items as [|[key value] rest IH]; intros fields inner_classes; [by inversion 2 |].
  rewrite omap_cons, nested_item_eq. cbn [generate_fields].
  destruct (isinstance value PyDict);
    [| destruct value as [| | | | | [|v0 xs] |]; try (by apply IH);
       destruct (isinstance v0 PyDict); [| by apply IH]].
  all: intros [[Hkn Hw] Hr]%Forall_cons Hex; cbn [fst snd] in Hkn, Hw.
  all: destruct (class_name_of_nonempty key Hkn) as [n ->]; cbn [res_bind].
  all: lazymatch goal with
       | |- context [res_bind (?g ?k ?w ?i false) _] => destruct (g k w i false) eqn:Hg
       end; cbn [res_bind]; [| by rewrite Hw].
  all: apply IH; [done |].
  all: inversion Hex as [? ? Hh | ? ? Ht]; [cbn [fst snd] in Hh; congruence | done].
Qed.

(** Some nested object is as deep as the deepest one. *)
Lemma max_list_witness (f : string * json -> nat) l k :
  k < max_list (map f l) -> Exists (fun x => k < f x) l.
Proof.
  intros Hk. assert (map f l <> []) as Hne by (intros Hnil; rewrite Hnil in Hk; cbn in Hk; lia).
  apply max_list_elem_of, list_elem_of_In, in_map_iff in Hne as (x & Hx & Hin).
  apply Exists_exists. exists x. split; [by apply list_elem_of_In | lia].
Qed.

(** C22: The depth is exact: on a valid dict (non-empty name, non-empty keys
    for the nested classes), a call stack of fewer than [call_depth v]
    frames makes the generator raise [RecursionError].  Together with
    [generate_apex_class_fuel_enough], the generator needs exactly
    [call_depth v] frames: one per level of object nesting, so a document
    nested deeper than the interpreter's recursion limit is rejected with
    [RecursionError]. *)
Theorem generate_apex_class_fuel_exact v :
  forall fuel name indent is_root,
    fuel < call_depth v -> name <> "" -> class_keys_ok v = true ->
    generate_apex_class_fuel fuel name v indent is_root = Raise RecursionError.
Proof.
  induction v as [v Hv | items IH] using json_walk_ind;
    intros fuel name indent is_root Hf Hn Hk; (destruct fuel as [|fuel]; [done |]).
  { destruct v; try discriminate Hv; cbn in Hf; lia. }
  rewrite call_depth_obj in Hf. cbn [generate_apex_class_fuel].
  destruct (class_name_of_nonempty name Hn) as [cn ->]. cbn [res_bind].
  pose proof (items_keys_ok_nested items Hk) as Hok.
  pose proof (nested_items_Forall _ _ IH) as Hw.
  rewrite Forall_forall in Hok, Hw. rewrite generate_fields_recursion; [done | |].
  - apply Forall_forall. intros kw Hin. destruct (Hok kw Hin) as [Hkn Hkv]. split; [done |].
    apply generate_apex_class_fuel_valid; [done | | done].
    pose proof (nested_item_dict items) as Hd. rewrite Forall_forall in Hd. by apply Hd.
  - apply Nat.succ_lt_mono, max_list_witness, Exists_exists in Hf as (kw & Hin & Hlt).
    apply Exists_exists. exists kw. split; [done |].
    destruct (Hok kw Hin) as [Hkn Hkv]. by apply Hw.
Qed.

(** ** Witnesses: [{"a": {"b": [{"c": 1}]}}] is three objects deep *)

Definition nested_sample : json :=
  JObject [("a", JObject [("b", JArray [JObject [("c", JInt 1)]])])].

Lemma generate_apex_class_fuel_enough_witness :
  call_depth nested_sample = 3 /\
  generate_apex_class_fuel 3 "Root" nested_sample 0 true = generate_apex_class "Root" nested_sample 0 true.
Proof.
  split; [reflexivity |].
  apply (generate_apex_class_fuel_enough nested_sample 3 "Root" 0 true). vm_compute. lia.
Defined.

Lemma generate_apex_class_fuel_exact_witness :
  generate_apex_class_fuel 2 "Root" nested_sample 0 true = Raise RecursionError.
Proof.
  apply (generate_apex_class_fuel_exact nested_sample 2 "Root" 0 true);
    [vm_compute; lia | discriminate | vm_compute; reflexivity].
Defined.
