(* ===== verification/Cli.v ===== *)
(** * Cli: [main] of [src/json2apex.py] (lines 99-121)

    The command-line entry point: it reads the input file, parses it with
    [json.loads], converts it with [convert_json_to_apex], and either
    writes the class to the [-o] file and prints a confirmation, or prints
    the class.  Nothing is caught: an exception ends the process with exit
    status 1.

    The effects are explicit: [io] is a state monad over [io_state] (the
    file system as a [gmap] from paths to contents, and the trace of the
    observable events: reads, writes and prints, in order) in which an
    exception is a value that keeps the state reached so far, as Python
    keeps the effects done before a [raise].  [json.loads] is the standard
    library's parser: [main] uses it through the interface [JsonLoads]
    (with its contract [JsonLoadsLaws]), so every theorem holds for any
    parser, and the sample run instantiates it.  [argparse] is a library too: [main]
    receives the parsed [cli_args], whose defaults are those of lines
    100-103. *)

From S2P Require Import Prelude PyStr Json ClassGen ClassDecl Driver.
From stdpp Require Import base list gmap strings.
From Stdlib Require Import Ascii String.

Open Scope py_scope.

(** ** Command line and I/O state *)

(** [args = parser.parse_args()] (lines 100-105): the positional [input],
    [-o/--output] (default [None]) and [-c/--classname] (default ['Root']). *)
Record cli_args : Type := mk_args {
  args_input : string;
  args_output : option string;
  args_classname : string
}.

(** The namespace [parse_args] returns when only the input path is given. *)
Definition default_args (input : string) : cli_args := mk_args input None DEFAULT_ROOT.

(** The observable events, in the order they happen. *)
Inductive io_event : Type :=
| EvRead (path : string)
| EvWrite (path contents : string)
| EvPrint (text : string).

#[export] Instance io_event_eq_dec : EqDecision io_event.
Proof. solve_decision. Defined.

Record io_state : Type := mk_io {
  files : gmap string string;
  trace : list io_event
}.

(** A computation: it returns a value or raises, and in both cases yields
    the state reached. *)
Definition io (A : Type) : Type := io_state -> result A * io_state.

#[export] Instance io_ret : MRet io := fun A a s => (Ok a, s).
#[export] Instance io_bind : MBind io := fun A B f m s =>
  match m s with
  | (Ok a, s') => f a s'
  | (Raise e, s') => (Raise e, s')
  end.

(** A pure call that may raise. *)
Definition io_lift {A} (r : result A) : io A := fun s => (r, s).

(** [with open(path, 'r') as f: f.read()]: [FileNotFoundError] when the
    path is not a file. *)
Definition read_file (path : string) : io string := fun s =>
  match files s !! path with
  | Some contents => (Ok contents, mk_io (files s) (trace s ++ [EvRead path]))
  | None => (Raise (FileNotFoundError path), s)
  end.

(** [with open(path, 'w') as f: f.write(contents)]: the file is created
    or truncated, then holds [contents]. *)
Definition write_file (path contents : string) : io unit := fun s =>
  (Ok tt, mk_io (<[path := contents]> (files s)) (trace s ++ [EvWrite path contents])).

(** [print(text)]. *)
Definition print (text : string) : io unit := fun s =>
  (Ok tt, mk_io (files s) (trace s ++ [EvPrint text])).

(** What the process wrote on standard output: each printed text followed
    by a newline. *)
Fixpoint stdout_of (evs : list io_event) : string :=
  match evs with
  | [] => ""
  | EvPrint t :: evs' => t +:+ nl +:+ stdout_of evs'
  | _ :: evs' => stdout_of evs'
  end.

(** ** The parser [main] calls *)

(** [json.loads] is the standard library's parser: [main] relies on it
    through this interface, an operation from text to a JSON value... *)
Class JsonLoads : Type := loads : string -> result json.

(** ... with its contract: the only exception it raises is
    [JSONDecodeError]. *)
Class JsonLoadsLaws `{JsonLoads} : Prop :=
  loads_raises : forall json_str e, loads json_str = Raise e -> exists msg, e = JSONDecodeError msg.

(** ** [main] *)

Section main.
Context {parser : JsonLoads}.

(** Lines 113-118.  [if args.output:] is Python truthiness: [None] and
    the empty string are false. *)
Definition emit (output : option string) (apex_code : string) : io unit :=
  match output with
  | Some path =>
      if String.eqb path "" then print apex_code
      else write_file path apex_code ;; print ("Apex class written to " +:+ path)
  | None => print apex_code
  end.

(** Lines 107-118. *)
Definition main (args : cli_args) : io unit :=
  json_str ← read_file (args_input args);
  json_data ← io_lift (loads json_str);
  apex_code ← io_lift (convert_json_to_apex json_data (args_classname args));
  emit (args_output args) apex_code.

(** Lines 120-121: the process runs [main]; an uncaught exception ends it
    with exit status 1. *)
Definition run (args : cli_args) (s : io_state) : nat * io_state :=
  let (r, s') := main args s in
  (match r with Ok _ => 0 | Raise _ => 1 end, s').

End main.

(** ** Unfolding [main] *)

Section main_props.
Context {parser : JsonLoads}.

(** The conversion [main] performs on the contents of the input file. *)
Definition convert_contents (args : cli_args) (json_str : string) : result string :=
  let* json_data := loads json_str in
  convert_json_to_apex json_data (args_classname args).

(** [main] step by step: the read, then the conversion, then the output. *)
Lemma main_eq args s :
  main args s =
  match files s !! args_input args with
  | None => (Raise (FileNotFoundError (args_input args)), s)
  | Some json_str =>
      match convert_contents args json_str with
      | Raise e => (Raise e, mk_io (files s) (trace s ++ [EvRead (args_input args)]))
      | Ok apex_code =>
          emit (args_output args) apex_code (mk_io (files s) (trace s ++ [EvRead (args_input args)]))
      end
  end.
Proof.
  unfold main, convert_contents, mbind, io_bind, read_file, io_lift.
  destruct (files s !! args_input args); [| done].
  destruct (loads _); [| done]. cbn [res_bind].
  destruct (convert_json_to_apex _ _); reflexivity.
Qed.

Lemma stdout_of_app evs evs' : stdout_of (evs ++ evs') = stdout_of evs +:+ stdout_of evs'.
Proof.
  induction evs as [|[] evs IH]; cbn [app stdout_of]; [done | done | done |].
  by rewrite IH, !str_app_assoc.
Qed.

Lemma stdout_of_print t : stdout_of [EvPrint t] = t +:+ nl.
Proof. cbn. by rewrite str_app_nil_r. Qed.

(** Printing and writing never raise. *)
Lemma emit_Ok output apex_code s : (emit output apex_code s).1 = Ok tt.
Proof. unfold emit. destruct output as [p|]; [destruct (String.eqb p "")|]; reflexivity. Qed.

(** The exit status of [run] is that of [main]. *)
Lemma run_status args s :
  (run args s).1 = match (main args s).1 with Ok _ => 0 | Raise _ => 1 end.
Proof. unfold run. by destruct (main args s). Qed.

(** ** Properties *)

(** C8: No partial output: when [main] raises (a missing input file, a parse
    error, [ValueError] from the driver or [IndexError] from the
    generator), no file has been written and nothing has been printed; the
    only event is the read of the input file, when it exists. *)
Theorem main_raise_no_output args s e s' :
  main args s = (Raise e, s') ->
  files s' = files s /\
  (trace s' = trace s \/ trace s' = trace s ++ [EvRead (args_input args)]).
Proof.
  rewrite main_eq. destruct (files s !! args_input args) as [json_str|]; [| naive_solver].
  destruct (convert_contents args json_str) as [apex_code|]; [| naive_solver].
  intros Hm. pose proof (emit_Ok (args_output args) apex_code
    (mk_io (files s) (trace s ++ [EvRead (args_input args)]))) as Hok.
  by rewrite Hm in Hok.
Qed.

(** C9: With [-o path] (a non-empty path), a successful run reads the input,
    then writes the class to [path] (creating or replacing that file and
    no other), then prints the confirmation, in this order. *)
Theorem main_writes_output args s json_str apex_code path :
  files s !! args_input args = Some json_str ->
  convert_contents args json_str = Ok apex_code ->
  args_output args = Some path -> path <> "" ->
  main args s =
  (Ok tt, mk_io (<[path := apex_code]> (files s))
             (trace s ++ [EvRead (args_input args); EvWrite path apex_code;
                          EvPrint ("Apex class written to " +:+ path)])).
Proof.
  intros Hf Hc Ho Hp. rewrite main_eq, Hf, Hc, Ho. cbn [emit].
  rewrite (proj2 (String.eqb_neq path "") Hp).
  cbv [mbind io_bind write_file print files trace]. by rewrite <- !app_assoc.
Qed.

(** C12: Without [-o], or with an empty [-o] (which Python's truthiness treats
    as absent), a successful run writes no file and prints the class:
    standard output gains the class text and a newline. *)
Theorem main_prints_output args s json_str apex_code :
  files s !! args_input args = Some json_str ->
  convert_contents args json_str = Ok apex_code ->
  (args_output args = None \/ args_output args = Some "") ->
  exists s', main args s = (Ok tt, s') /\ files s' = files s /\
    trace s' = trace s ++ [EvRead (args_input args); EvPrint apex_code] /\
    stdout_of (trace s') = stdout_of (trace s) +:+ apex_code +:+ nl.
Proof.
  intros Hf Hc Ho. rewrite main_eq, Hf, Hc.
  eexists; split; [destruct Ho as [-> | ->]; reflexivity |].
  cbn [files trace]. rewrite <- app_assoc. split; [done | split; [done |]].
  rewrite stdout_of_app. cbn [stdout_of app]. by rewrite str_app_nil_r.
Qed.

(** C10: Exit status 0 only on valid inputs: when the process ends with
    status 0, the input file exists, [json.loads] accepts it, the
    document has a root object, the class name is non-empty and every key
    that introduces a nested class is non-empty; an input that fails any
    of these ends the process with status 1.  The converse is not claimed:
    opening the [-o] file (line 114) can fail, and a document nested
    deeper than CPython's recursion limit raises [RecursionError]
    ([Recursion]); the model of [main] has neither failure. *)
Theorem run_exit_zero args s :
  (run args s).1 = 0 ->
  exists json_str json_data o,
    files s !! args_input args = Some json_str /\ loads json_str = Ok json_data /\
    select_root json_data = Some o /\ args_classname args <> "" /\ class_keys_ok o = true.
Proof.
  rewrite run_status, main_eq.
  destruct (files s !! args_input args) as [json_str|]; [| done].
  unfold convert_contents. destruct (loads json_str) as [json_data|] eqn:Hl; cbn [res_bind]; [| done].
  pose proof (convert_json_to_apex_outcome json_data (args_classname args)) as H. revert H.
  destruct (convert_json_to_apex json_data (args_classname args)) as [apex_code|e]; [| done].
  intros (o & Ho & Hn & Hk) _. eauto 10.
Qed.

(** C11: [InvalidInput] at the process level: when [json.loads] raises only
    [JSONDecodeError] (its contract), [main] ends with the driver's
    [ValueError] exactly when the input file parses to a document that has
    no root object. *)
Theorem main_invalid_input {laws : JsonLoadsLaws} args s :
  (exists s', main args s = (Raise (ValueError INVALID_INPUT), s')) <->
  exists json_str json_data,
    files s !! args_input args = Some json_str /\ loads json_str = Ok json_data /\
    select_root json_data = None.
Proof.
  rewrite main_eq.
  destruct (files s !! args_input args) as [json_str|];
    [| split; [intros [s' [=]] | intros (? & ? & [=] & _)]].
  unfold convert_contents. destruct (loads json_str) as [json_data|e] eqn:Hl; cbn [res_bind].
  - pose proof (convert_json_to_apex_outcome json_data (args_classname args)) as H. revert H.
    destruct (convert_json_to_apex json_data (args_classname args)) as [apex_code|e].
    + intros (o & Ho & _). pose proof (emit_Ok (args_output args) apex_code
        (mk_io (files s) (trace s ++ [EvRead (args_input args)]))) as Hok.
      split; [intros [s' Hs']; by rewrite Hs' in Hok |].
      intros (? & ? & [= <-] & Hl' & Hs). rewrite Hl in Hl'. injection Hl' as <-. congruence.
    + intros [[Hs ->] | (o & Ho & -> & _)]; [split; eauto 6 |].
      split; [intros [s' [=]] |].
      intros (? & ? & [= <-] & Hl' & Hs). rewrite Hl in Hl'. injection Hl' as <-. congruence.
  - destruct (loads_raises json_str e Hl) as [msg ->].
    split; [intros [s' [=]] | intros (? & ? & [= <-] & Hl' & _); congruence].
Qed.

End main_props.

(** ** A sample run *)

(** A parser that knows three texts: the scenario document of spec
    section 8, an empty list, and nothing else (it raises
    [JSONDecodeError] on any other text, as [json.loads] does on
    malformed input). *)
Definition quoted (s : string) : string := dq +:+ s +:+ dq.

Definition scenario_text : string :=
  "{" +:+ quoted "user_id" +:+ ": 1, " +:+ quoted "first_name" +:+ ": " +:+ quoted "Ann"
  +:+ ", " +:+ quoted "is_active" +:+ ": true, " +:+ quoted "address" +:+ ": {"
  +:+ quoted "zip_code" +:+ ": " +:+ quoted "10001" +:+ "}}".

Definition sample_loads (json_str : string) : result json :=
  if String.eqb json_str scenario_text then Ok scenario_input
  else if String.eqb json_str "[]" then Ok (JArray [])
  else Raise (JSONDecodeError "Expecting value: line 1 column 1 (char 0)").

Lemma sample_loads_raises json_str e :
  sample_loads json_str = Raise e -> exists msg, e = JSONDecodeError msg.
Proof.
  unfold sample_loads. destruct (String.eqb json_str scenario_text); [done |].
  destruct (String.eqb json_str "[]"); [done |]. intros [= <-]. eauto.
Qed.

#[export] Instance sample_json_loads : JsonLoads := sample_loads.

#[export] Instance sample_json_loads_laws : JsonLoadsLaws.
Proof. exact sample_loads_raises. Qed.

Definition sample_state : io_state :=
  mk_io (<["data.json" := scenario_text]> (<["empty.json" := "[]"]> ∅)) [].

Definition scenario_code : string :=
  match convert_json_to_apex scenario_input DEFAULT_ROOT with
  | Ok c => c
  | Raise _ => ""
  end.

Lemma main_writes_output_witness :
  main (mk_args "data.json" (Some "Root.cls") DEFAULT_ROOT) sample_state =
  (Ok tt, mk_io (<["Root.cls" := scenario_code]> (files sample_state))
                (trace sample_state ++ [EvRead "data.json"; EvWrite "Root.cls" scenario_code;
                                        EvPrint ("Apex class written to " +:+ "Root.cls")])).
Proof.
  apply (main_writes_output (mk_args "data.json" (Some "Root.cls") DEFAULT_ROOT)
           sample_state scenario_text scenario_code "Root.cls");
    [vm_compute; reflexivity | vm_compute; reflexivity | reflexivity | discriminate].
Defined.

Lemma main_prints_output_witness :
  exists s', main (mk_args "data.json" (Some "") DEFAULT_ROOT) sample_state = (Ok tt, s') /\
    files s' = files sample_state /\
    trace s' = trace sample_state ++ [EvRead "data.json"; EvPrint scenario_code] /\
    stdout_of (trace s') = stdout_of (trace sample_state) +:+ scenario_code +:+ nl.
Proof.
  apply (main_prints_output (mk_args "data.json" (Some "") DEFAULT_ROOT)
           sample_state scenario_text scenario_code);
    [vm_compute; reflexivity | vm_compute; reflexivity | by right].
Defined.

Lemma main_raise_no_output_witness :
  main (mk_args "empty.json" (Some "Root.cls") DEFAULT_ROOT) sample_state
    = (Raise (ValueError INVALID_INPUT), mk_io (files sample_state) [EvRead "empty.json"]) /\
  files sample_state = files sample_state /\
  ([EvRead "empty.json"] = [] \/ [EvRead "empty.json"] = [] ++ [EvRead "empty.json"]).
Proof.
  assert (Hm : main (mk_args "empty.json" (Some "Root.cls") DEFAULT_ROOT) sample_state
    = (Raise (ValueError INVALID_INPUT), mk_io (files sample_state) [EvRead "empty.json"]))
    by (vm_compute; reflexivity).
  split; [exact Hm |].
  exact (main_raise_no_output _ sample_state _ _ Hm).
Defined.

Lemma main_invalid_input_witness :
  exists s', main (default_args "empty.json") sample_state
               = (Raise (ValueError INVALID_INPUT), s').
Proof.
  apply (main_invalid_input _ sample_state).
  exists "[]", (JArray []). split; [vm_compute; reflexivity | split; reflexivity].
Defined.

Lemma run_exit_zero_witness :
  exists json_str json_data o,
    files sample_state !! "data.json" = Some json_str /\ loads json_str = Ok json_data /\
    select_root json_data = Some o /\ DEFAULT_ROOT <> "" /\ class_keys_ok o = true.
Proof. apply (run_exit_zero (default_args "data.json") sample_state). vm_compute. reflexivity. Defined.
