(* ===== verification/CliStep.v ===== *)
(** * CliStep: [main] of [src/json2apex.py] statement by statement

    [Cli.main] gives the effect of the whole of [main] (lines 107-118) at
    once.  Here the same lines are a small-step machine: a configuration
    is the program point of [main] that has been reached together with
    the I/O state, and [cli_step] executes one statement: the read of the
    input file (lines 107-108), [json.loads] (line 109),
    [convert_json_to_apex] (line 111), the test [if args.output:] with the
    write (lines 113-115), the confirmation (line 116) or the print
    (line 118).  An exception ends the run in [Raised], the return of
    [main] in [Returned]; no statement applies to either.

    The relation is the graph of the executable [cli_next], so it is
    deterministic and a configuration is stuck exactly when [main] has
    ended; the theorems show that the final configurations are exactly
    the results of [Cli.main] (refinement), and that every reachable
    configuration satisfies the trace invariant [io_explained]: the
    events so far extend the initial trace, only the input is read, only
    the [-o] path is written, and the file system is the initial one with
    the trace's writes replayed (rule induction on [rtc]). *)

From S2P Require Import Prelude PyStr Json Driver Cli.
From stdpp Require Import base list gmap strings relations.
From Stdlib Require Import String.

Open Scope py_scope.

(** ** Configurations *)

(** The program points of [main], each named by the statement that runs
    next, with the local variables live there. *)
Inductive cli_pc : Type :=
| AtRead                          (** lines 107-108: open and read [args.input] *)
| AtLoads (json_str : string)     (** line 109: [json.loads(json_str)] *)
| AtConvert (json_data : json)    (** line 111: [convert_json_to_apex] *)
| AtOutput (apex_code : string)   (** line 113: [if args.output:] *)
| AtConfirm (path : string)       (** line 116: the confirmation *)
| Returned                        (** [main] returned *)
| Raised (e : py_exc).            (** an exception left [main] *)

Record cli_cfg : Type := mk_cfg { cfg_pc : cli_pc; cfg_io : io_state }.

Definition cli_init (s : io_state) : cli_cfg := mk_cfg AtRead s.

(** A run has ended: [main] returned or raised. *)
Definition cli_final (c : cli_cfg) : bool :=
  match cfg_pc c with Returned | Raised _ => true | _ => false end.

(** The configuration a result of [Cli.main] ends in. *)
Definition cli_result_cfg (r : result unit) (s : io_state) : cli_cfg :=
  match r with Ok _ => mk_cfg Returned s | Raise e => mk_cfg (Raised e) s end.

(** ** One statement *)

Section machine.
Context {parser : JsonLoads} (args : cli_args).

(** Continue at [pc] with the value a statement returned, or leave
    [main] with the exception it raised, in the state it reached. *)
Definition cli_continue {A} (pc : A -> cli_pc) (rs : result A * io_state) : cli_cfg :=
  match rs with
  | (Ok a, s') => mk_cfg (pc a) s'
  | (Raise e, s') => mk_cfg (Raised e) s'
  end.

(** The statement at the program point, executed: [None] once [main]
    has ended.  [if args.output:] takes the branch when the path is
    present and not empty (Python truthiness). *)
Definition cli_next (c : cli_cfg) : option cli_cfg :=
  let s := cfg_io c in
  match cfg_pc c with
  | AtRead => Some (cli_continue AtLoads (read_file (args_input args) s))
  | AtLoads json_str => Some (cli_continue AtConvert (io_lift (loads json_str) s))
  | AtConvert json_data =>
      Some (cli_continue AtOutput
              (io_lift (convert_json_to_apex json_data (args_classname args)) s))
  | AtOutput apex_code =>
      match args_output args with
      | Some path =>
          if String.eqb path "" then Some (cli_continue (fun _ => Returned) (print apex_code s))
          else Some (cli_continue (fun _ => AtConfirm path) (write_file path apex_code s))
      | None => Some (cli_continue (fun _ => Returned) (print apex_code s))
      end
  | AtConfirm path =>
      Some (cli_continue (fun _ => Returned) (print ("Apex class written to " +:+ path) s))
  | Returned | Raised _ => None
  end.

(** The step relation, one rule per statement and outcome. *)
Inductive cli_step : cli_cfg -> cli_cfg -> Prop :=
| step_read s json_str s' :
    read_file (args_input args) s = (Ok json_str, s') ->
    cli_step (mk_cfg AtRead s) (mk_cfg (AtLoads json_str) s')
| step_read_raise s e s' :
    read_file (args_input args) s = (Raise e, s') ->
    cli_step (mk_cfg AtRead s) (mk_cfg (Raised e) s')
| step_loads s json_str json_data :
    loads json_str = Ok json_data ->
    cli_step (mk_cfg (AtLoads json_str) s) (mk_cfg (AtConvert json_data) s)
| step_loads_raise s json_str e :
    loads json_str = Raise e ->
    cli_step (mk_cfg (AtLoads json_str) s) (mk_cfg (Raised e) s)
| step_convert s json_data apex_code :
    convert_json_to_apex json_data (args_classname args) = Ok apex_code ->
    cli_step (mk_cfg (AtConvert json_data) s) (mk_cfg (AtOutput apex_code) s)
| step_convert_raise s json_data e :
    convert_json_to_apex json_data (args_classname args) = Raise e ->
    cli_step (mk_cfg (AtConvert json_data) s) (mk_cfg (Raised e) s)
| step_write s apex_code path :
    args_output args = Some path -> path <> "" ->
    cli_step (mk_cfg (AtOutput apex_code) s)
             (mk_cfg (AtConfirm path) (write_file path apex_code s).2)
| step_print s apex_code :
    (args_output args = None \/ args_output args = Some "") ->
    cli_step (mk_cfg (AtOutput apex_code) s) (mk_cfg Returned (print apex_code s).2)
| step_confirm s path :
    cli_step (mk_cfg (AtConfirm path) s)
             (mk_cfg Returned (print ("Apex class written to " +:+ path) s).2).

(** ** The trace invariant *)

(** The events [main] may cause: reading the input file, writing the
    [-o] path when that path is taken (present and not empty), printing. *)
Definition event_allowed (ev : io_event) : bool :=
  match ev with
  | EvRead path => String.eqb path (args_input args)
  | EvWrite path _ =>
      match args_output args with
      | Some out => String.eqb path out && negb (String.eqb path "")
      | None => false
      end
  | EvPrint _ => true
  end.

End machine.

(** The file system after the writes of [evs], in order. *)
Definition replay_writes (fs : gmap string string) (evs : list io_event) : gmap string string :=
  foldl (fun fs ev => match ev with EvWrite path contents => <[path := contents]> fs | _ => fs end)
        fs evs.

(** [s] is [s0] after events [main] may cause: the trace of [s] extends
    that of [s0] with such events, and the file system of [s] is that of
    [s0] with their writes replayed. *)
Definition io_explained `{JsonLoads} (args : cli_args) (s0 s : io_state) : Prop :=
  exists evs, trace s = trace s0 ++ evs /\ forallb (event_allowed args) evs = true /\
              files s = replay_writes (files s0) evs.

(** ** The step relation is the graph of [cli_next] *)

Section step_props.
Context {parser : JsonLoads} (args : cli_args).

Lemma cli_step_next c c' : cli_step args c c' <-> cli_next args c = Some c'.
Proof.
  split.
  - destruct 1 as [s j s' Hr|s e s' Hr|s j d Hl|s j e Hl|s d a Hc|s d e Hc|s a p Ho Hp|s a Ho|s p];
      cbn [cli_next cfg_pc cfg_io]; unfold io_lift;
      rewrite ?Hr, ?Hl, ?Hc; [done..| | | done].
    + rewrite Ho. by rewrite (proj2 (String.eqb_neq p "") Hp).
    + by destruct Ho as [-> | ->].
  - destruct c as [pc s]; destruct pc; cbn [cli_next cfg_pc cfg_io]; intros Hn; try discriminate.
    + destruct (read_file _ s) as [[j|e] s'] eqn:Hr; injection Hn as <-; by constructor.
    + unfold io_lift in Hn. destruct (loads _) eqn:Hl; injection Hn as <-; by constructor.
    + unfold io_lift in Hn. destruct (convert_json_to_apex _ _) eqn:Hc; injection Hn as <-; by constructor.
    + destruct (args_output args) as [p|] eqn:Ho; [destruct (String.eqb_spec p "") as [->|Hp]|];
        injection Hn as <-; [apply step_print; auto | by apply step_write | apply step_print; auto].
    + injection Hn as <-. apply step_confirm.
Qed.

Lemma cli_step_deterministic : deterministic (cli_step args).
Proof. intros c c1 c2 H1%cli_step_next H2%cli_step_next. congruence. Qed.

(** [cli_next] stops exactly at the end of [main]. *)
Lemma cli_next_None c : cli_next args c = None <-> cli_final c = true.
Proof.
  destruct c as [[] s]; cbn [cli_next cli_final cfg_pc]; try done.
  destruct (args_output args) as [p|]; [destruct (String.eqb p "")|]; done.
Qed.

(** A configuration is stuck exactly when [main] has ended. *)
Lemma cli_nf_final c : nf (cli_step args) c <-> cli_final c = true.
Proof.
  rewrite <- cli_next_None. split.
  - intros Hnf. destruct (cli_next args c) as [c'|] eqn:Hn; [| done].
    destruct Hnf. exists c'. by apply cli_step_next.
  - intros Hn [c' Hs%cli_step_next]. congruence.
Qed.

(** The run of the machine from the start ends in the configuration that
    the result of [Cli.main] describes. *)
Lemma cli_reaches_main s :
  rtc (cli_step args) (cli_init s) (cli_result_cfg (main args s).1 (main args s).2).
Proof.
  unfold main, cli_init. cbv [mbind io_bind io_lift].
  destruct (read_file (args_input args) s) as [[json_str|e] s1] eqn:Hr;
    [| by apply rtc_once, step_read_raise].
  eapply rtc_l; [by apply step_read |].
  destruct (loads json_str) as [json_data|e] eqn:Hl; [| by apply rtc_once, step_loads_raise].
  eapply rtc_l; [by apply step_loads |].
  destruct (convert_json_to_apex json_data (args_classname args)) as [apex_code|e] eqn:Hc;
    [| by apply rtc_once, step_convert_raise].
  eapply rtc_l; [by apply step_convert |].
  unfold emit. destruct (args_output args) as [p|] eqn:Ho;
    [destruct (String.eqb_spec p "") as [->|Hp] |].
  - by apply rtc_once, step_print; auto.
  - eapply rtc_l; [by apply step_write |]. apply rtc_once, step_confirm.
  - by apply rtc_once, step_print; auto.
Qed.

(** Two runs from one configuration that end, end in the same
    configuration. *)
Lemma cli_final_unique c c1 c2 :
  rtc (cli_step args) c c1 -> cli_final c1 = true ->
  rtc (cli_step args) c c2 -> cli_final c2 = true -> c1 = c2.
Proof.
  intros H1 F1 H2 F2. apply (confluent_rtc_nf (R := cli_step args) c);
    [apply deterministic_confluent, cli_step_deterministic | done | by apply cli_nf_final
    | done | by apply cli_nf_final].
Qed.

Lemma cli_result_cfg_inj r1 r2 s1 s2 :
  cli_result_cfg r1 s1 = cli_result_cfg r2 s2 -> r1 = r2 /\ s1 = s2.
Proof. destruct r1 as [[]|], r2 as [[]|]; cbn; naive_solver. Qed.

(** One more event [main] may cause keeps the state explained. *)
Lemma io_explained_snoc s0 s ev fs' :
  io_explained args s0 s -> event_allowed args ev = true ->
  fs' = replay_writes (files s) [ev] ->
  io_explained args s0 (mk_io fs' (trace s ++ [ev])).
Proof.
  intros (evs & Ht & Ha & Hf) He ->. exists (evs ++ [ev]). cbn [trace files].
  rewrite Ht, <- app_assoc, forallb_app, Ha. cbn [forallb andb]. rewrite He.
  split; [done | split; [done |]].
  rewrite Hf. unfold replay_writes. by rewrite foldl_app.
Qed.

Lemma cli_step_explained s0 c c' :
  cli_step args c c' -> io_explained args s0 (cfg_io c) -> io_explained args s0 (cfg_io c').
Proof.
  destruct 1 as [s j s' Hr|s e s' Hr| | | | |s a p Ho Hp|s a Ho|s p]; cbn [cfg_io]; intros Hx;
    try done.
  - unfold read_file in Hr. destruct (files s !! _); [injection Hr as <- <- | done].
    apply io_explained_snoc; [done | apply String.eqb_refl | done].
  - unfold read_file in Hr. destruct (files s !! _); [done | by injection Hr as <- <-].
  - apply io_explained_snoc; [done | cbn; rewrite Ho, String.eqb_refl | done].
    by rewrite (proj2 (String.eqb_neq p "") Hp).
  - by apply io_explained_snoc.
  - by apply io_explained_snoc.
Qed.

End step_props.

(** ** Properties *)

Section cli_claims.
Context {parser : JsonLoads} (args : cli_args).


(** C13: The machine refines [main]: the statement-by-statement runs from
    the start end, with [main] returning or raising [e], in state [s']
    exactly when [Cli.main] gives that result and state. *)
Theorem cli_machine_main s r s' :
  rtc (cli_step args) (cli_init s) (cli_result_cfg r s') <-> main args s = (r, s').
Proof.
  pose proof (cli_reaches_main args s) as Hm. split.
  - intros Hx. destruct (main args s) as [r0 s0].
    cut (r0 = r /\ s0 = s'); [by intros [-> ->] |]. apply cli_result_cfg_inj.
    by apply (cli_final_unique args (cli_init s)); [| destruct r0 | | destruct r].
  - intros Hr. by rewrite Hr in Hm.
Qed.

(** C14: Every configuration a run reaches is explained by its trace: the
    events so far extend the initial trace, every one of them is a read of
    the input file, a write of the [-o] path (present and non-empty) or a
    print, and the file system is the initial one with those writes
    replayed in order (rule induction on the reachability relation). *)
Theorem cli_reachable_explained s c :
  rtc (cli_step args) (cli_init s) c -> io_explained args s (cfg_io c).
Proof.
  revert c. apply rtc_ind_r.
  - exists []. by rewrite app_nil_r.
  - intros c1 c2 _ Hs IH. by apply (cli_step_explained args s c1 c2).
Qed.

End cli_claims.

(** ** The sample run, statement by statement *)

Ltac run_steps :=
  repeat (eapply rtc_l; [apply cli_step_next; reflexivity |]); apply rtc_refl.

Definition sample_args : cli_args := mk_args "data.json" (Some "Root.cls") DEFAULT_ROOT.

Lemma cli_reachable_explained_witness :
  io_explained sample_args sample_state
    (mk_io (<["Root.cls" := scenario_code]> (files sample_state))
           [EvRead "data.json"; EvWrite "Root.cls" scenario_code;
            EvPrint ("Apex class written to " +:+ "Root.cls")]).
Proof.
  apply (cli_reachable_explained sample_args sample_state
           (mk_cfg Returned (mk_io (<["Root.cls" := scenario_code]> (files sample_state))
              [EvRead "data.json"; EvWrite "Root.cls" scenario_code;
               EvPrint ("Apex class written to " +:+ "Root.cls")]))).
  run_steps.
Defined.
