(* ===== verification/EndToEnd.v ===== *)
(** * EndToEnd: the components together

    [main] (lines 107-118) reads the input, hands the parsed document to
    the driver ([convert_json_to_apex], lines 91-97), which selects the
    root object and calls the generator ([generate_apex_class], lines
    50-88), and writes the text it returns.  The theorems here go through
    all of them at once: the file [main] writes with [-o] holds, line by
    line, the class tree [build_class] builds from the root object of the
    parsed document, as [render_class] prints it. *)

From S2P Require Import Prelude PyStr Json ClassGen ClassDecl Driver Walk Layout Cli CliStep.
From stdpp Require Import base list gmap strings.
From Stdlib Require Import String.

Open Scope py_scope.

Section end_to_end.
Context {parser : JsonLoads}.

(** A successful run with a non-empty [-o] path leaves at that path the
    text the driver returned for the parsed document. *)
Lemma main_written_file args s s' path json_str :
  main args s = (Ok tt, s') -> args_output args = Some path -> path <> "" ->
  files s !! args_input args = Some json_str ->
  exists apex_code, convert_contents args json_str = Ok apex_code /\
                    files s' !! path = Some apex_code.
Proof.
  intros Hm Ho Hp Hf. rewrite main_eq, Hf in Hm.
  destruct (convert_contents args json_str) as [apex_code|e]; [| discriminate Hm].
  exists apex_code. split; [done |].
  rewrite Ho in Hm. unfold emit in Hm. rewrite (proj2 (String.eqb_neq path "") Hp) in Hm.
  cbv [mbind io_bind write_file print] in Hm. injection Hm as <-. apply lookup_insert_eq.
Qed.

(** C15: End to end: when [main] succeeds with a non-empty [-o] path on an
    input file that parses to a document with root object [o], and the
    class name and the keys of the walk have no newline, the file written
    at that path splits at newlines into exactly the lines of the class
    tree built from [o] as the root class: the CLI, the driver, the
    generator and the printer compose. *)
Theorem main_output_file_lines args s s' path json_str json_data o :
  main args s = (Ok tt, s') -> args_output args = Some path -> path <> "" ->
  files s !! args_input args = Some json_str -> loads json_str = Ok json_data ->
  select_root json_data = Some o ->
  str_lacks nl_char (args_classname args) = true -> keys_all (str_lacks nl_char) o = true ->
  exists c, build_class (args_classname args) o true = Ok c /\
    option_map (py_split nl_char) (files s' !! path) = Some (render_class 0 c).
Proof.
  intros Hm Ho Hp Hf Hl Hs Hn Hk.
  destruct (main_written_file args s s' path json_str Hm Ho Hp Hf) as (apex_code & Hc & ->).
  unfold convert_contents in Hc. rewrite Hl in Hc. cbn [res_bind] in Hc.
  rewrite convert_json_to_apex_select, Hs, gen_build_refinement in Hc.
  destruct (build_class (args_classname args) o true) as [c|] eqn:Hb; cbn [res_map] in Hc;
    [| discriminate Hc].
  injection Hc as <-. exists c. split; [done |]. cbn [option_map]. f_equal.
  apply render_text_lines. exact (build_class_chars nl_char eq_refl o _ _ c eq_refl Hb Hn Hk).
Qed.

End end_to_end.

Lemma main_output_file_lines_witness :
  exists c, build_class DEFAULT_ROOT scenario_input true = Ok c /\
    option_map (py_split nl_char) (files (main sample_args sample_state).2 !! "Root.cls") =
    Some (render_class 0 c).
Proof.
  apply (main_output_file_lines sample_args sample_state (main sample_args sample_state).2
           "Root.cls" scenario_text scenario_input scenario_input);
    [vm_compute; reflexivity | reflexivity | done | reflexivity | reflexivity | reflexivity
    | reflexivity | vm_compute; reflexivity].
Defined.
